(** * openai_tester.py: the probe suite and the streaming classifier

    A shallow embedding of [OpenAITester] (src/openai_tester.py) and the
    properties of its five probes, of the streaming-quality classifier inside
    [test_stream_mode], and of the result store handled by
    [test_single_model].

    Conventions of the embedding.
    - Python values (what [json.loads] returns, and what the result
      dictionaries hold) are the type [value]; a [dict] is a [gmap] from
      string keys.
    - A Python [str] is a Rocq [string].  For ASCII text one element is one
      character, and this is how the text of a response and of its lines is
      read ([text[:200]], [line_str[6:]], [startswith], [strip], [lower]).
      The Chinese literals of the source are kept as written, as their
      UTF-8 bytes; no function takes them apart.
    - Python floats (clock readings and their arithmetic) are an abstract
      type with the operations the source applies to them ([PyFloat]); the
      rationals are one instance, used for the concrete runs.
    - A raised exception is a value of [exn]; code inside [try] runs in a
      small state-and-exception monad, so that what was written to [result]
      before a [raise] is still there when the handler runs.
    - The network is an input: every probe receives the [exchange] its single
      request produced.  [json.loads] and the decoding of a received line
      belong to the Python runtime and are parameters.
    - Console output ([console.print], tables, panels) is not part of the
      result of any function here and is left out; it is taken not to raise. *)

From Stdlib Require Import ZArith QArith String Ascii List Lia.
From stdpp Require Import gmap strings pretty.

Set Warnings "-register-all".

Local Open Scope string_scope.
Local Open Scope Z_scope.

(** ** Python values *)

Inductive value (F : Type) : Type :=
| VNone
| VBool (b : bool)
| VInt (z : Z)
| VFloat (x : F)
| VStr (s : string)
| VList (l : list (value F))
| VDict (d : gmap string (value F)).

Arguments VNone {F}.
Arguments VBool {F} b.
Arguments VInt {F} z.
Arguments VFloat {F} x.
Arguments VStr {F} s.
Arguments VList {F} l.
Arguments VDict {F} d.

(** ** Exceptions *)

Inductive exn_class :=
| Timeout            (* requests.exceptions.Timeout and its subclasses *)
| ConnectionError    (* requests.exceptions.ConnectionError, not a Timeout *)
| JSONDecodeError
| AttributeError
| IndexError
| KeyError
| TypeError
| OtherException.

(** [exn_msg e] is [str(e)]. *)
Record exn := Exn { exn_cls : exn_class; exn_msg : string }.

Inductive res (A : Type) : Type :=
| Ok (a : A)
| Raise (e : exn).

Arguments Ok {A} a.
Arguments Raise {A} e.

Definition res_bind {A B} (c : res A) (k : A → res B) : res B :=
  match c with
  | Ok a => k a
  | Raise e => Raise e
  end.

(** State and exception: the state survives a [Raise]. *)
Definition M (S A : Type) : Type := S → S * res A.

Definition ret {S A} (a : A) : M S A := fun s => (s, Ok a).

Definition bind {S A B} (c : M S A) (k : A → M S B) : M S B :=
  fun s =>
    match c s with
    | (s', Ok a) => k a s'
    | (s', Raise e) => (s', Raise e)
    end.

Definition lift {S A} (c : res A) : M S A := fun s => (s, c).

Definition modify {S} (f : S → S) : M S unit := fun s => (f s, Ok tt).

Definition gets {S A} (f : S → A) : M S A := fun s => (s, Ok (f s)).

Notation "x <- c ;; k" := (bind c (fun x => k))
  (at level 100, c at next level, right associativity).
Notation "c ;; k" := (bind c (fun _ => k))
  (at level 100, right associativity).

Fixpoint mapM_res {A B} (f : A → res B) (l : list A) : res (list B) :=
  match l with
  | [] => Ok []
  | a :: l' =>
      res_bind (f a) (fun b => res_bind (mapM_res f l') (fun bs => Ok (b :: bs)))
  end.

(** ** Strings *)

Definition dq : string := String (ascii_of_nat 34) EmptyString.

Definition startswith (s p : string) : bool := String.prefix p s.

Fixpoint str_drop (n : nat) (s : string) : string :=
  match n, s with
  | O, _ => s
  | S n', String _ s' => str_drop n' s'
  | S _, EmptyString => EmptyString
  end.

Fixpoint str_take (n : nat) (s : string) : string :=
  match n, s with
  | S n', String c s' => String c (str_take n' s')
  | _, _ => EmptyString
  end.

(** The characters [str.strip()] removes, among the ASCII ones. *)
Definition is_space (c : ascii) : bool :=
  let n := nat_of_ascii c in
  ((9 <=? n)%nat && (n <=? 13)%nat) || ((28 <=? n)%nat && (n <=? 32)%nat).

Fixpoint lstrip (l : list ascii) : list ascii :=
  match l with
  | c :: l' => if is_space c then lstrip l' else l
  | [] => []
  end.

Definition strip (s : string) : string :=
  string_of_list_ascii
    (rev (lstrip (rev (lstrip (list_ascii_of_string s))))).

Definition lower_ascii (c : ascii) : ascii :=
  let n := nat_of_ascii c in
  if ((65 <=? n)%nat && (n <=? 90)%nat)%bool then ascii_of_nat (n + 32) else c.

Fixpoint lower (s : string) : string :=
  match s with
  | EmptyString => EmptyString
  | String c s' => String (lower_ascii c) (lower s')
  end.

(** [contains p s] is [p in s]. *)
Fixpoint contains (p s : string) : bool :=
  String.prefix p s ||
  match s with
  | EmptyString => false
  | String _ s' => contains p s'
  end.

Fixpoint chars (s : string) : list string :=
  match s with
  | EmptyString => []
  | String c s' => String c EmptyString :: chars s'
  end.

(** ** Floats *)

(** The operations [test_stream_mode] and the other probes apply to clock
    readings.  Nothing is assumed of them: every statement below holds for
    IEEE doubles as well as for exact arithmetic. *)
Class PyFloat (F : Type) := {
  fsub : F → F → F;          (* a - b *)
  fsum : list F → F;         (* sum(xs) *)
  fdiv_int : F → Z → F;      (* x / n for an int n other than 0 *)
  fgt : F → F → bool;        (* a > b *)
  f_0_01 : F;                (* the literal 0.01 *)
  fround3 : F → F;           (* round(x, 3) *)
  fnonzero : F → bool        (* bool(x) *)
}.

(** ** The operations of Python the probes use *)

Section Python.
Context {F : Type} `{PyFloat F}.

Local Abbreviation value := (value F).
Local Abbreviation dict := (gmap string value).

Definition type_name (v : value) : string :=
  match v with
  | VNone => "NoneType"
  | VBool _ => "bool"
  | VInt _ => "int"
  | VFloat _ => "float"
  | VStr _ => "str"
  | VList _ => "list"
  | VDict _ => "dict"
  end.

(** [bool(v)] *)
Definition truthy (v : value) : bool :=
  match v with
  | VNone => false
  | VBool b => b
  | VInt z => negb (z =? 0)
  | VFloat x => fnonzero x
  | VStr s => negb (String.eqb s "")
  | VList l => match l with [] => false | _ => true end
  | VDict d => negb (bool_decide (d = ∅))
  end.

Definition no_attribute (v : value) (a : string) : exn :=
  Exn AttributeError ("'" ++ type_name v ++ "' object has no attribute '" ++ a ++ "'").

(** [v.get(k, d)] *)
Definition py_get (v : value) (k : string) (d : value) : res value :=
  match v with
  | VDict m => Ok (default d (m !! k))
  | _ => Raise (no_attribute v "get")
  end.

(** [v[0]]; the keys of a dict that came from JSON are strings, so [0] is
    never one of them. *)
Definition py_item0 (v : value) : res value :=
  match v with
  | VList (a :: _) => Ok a
  | VList [] => Raise (Exn IndexError "list index out of range")
  | VStr (String c _) => Ok (VStr (String c EmptyString))
  | VStr EmptyString => Raise (Exn IndexError "string index out of range")
  | VDict _ => Raise (Exn KeyError "0")
  | _ => Raise (Exn TypeError ("'" ++ type_name v ++ "' object is not subscriptable"))
  end.

(** [v[k]] for a string key [k] *)
Definition py_item (v : value) (k : string) : res value :=
  match v with
  | VDict m =>
      match m !! k with
      | Some a => Ok a
      | None => Raise (Exn KeyError ("'" ++ k ++ "'"))
      end
  | VList _ => Raise (Exn TypeError "list indices must be integers or slices, not str")
  | VStr _ => Raise (Exn TypeError "string indices must be integers, not 'str'")
  | _ => Raise (Exn TypeError ("'" ++ type_name v ++ "' object is not subscriptable"))
  end.

(** The elements [for m in v] runs through. *)
Definition py_iter (v : value) : res (list value) :=
  match v with
  | VList l => Ok l
  | VStr s => Ok (VStr <$> chars s)
  | VDict m => Ok ((fun kv => VStr kv.1) <$> map_to_list m)
  | _ => Raise (Exn TypeError ("'" ++ type_name v ++ "' object is not iterable"))
  end.

(** [len(v)] *)
Definition py_len (v : value) : res Z :=
  match v with
  | VList l => Ok (Z.of_nat (length l))
  | VStr s => Ok (Z.of_nat (String.length s))
  | VDict m => Ok (Z.of_nat (size m))
  | _ => Raise (Exn TypeError ("object of type '" ++ type_name v ++ "' has no len()"))
  end.

(** [v[:n]], of which the probes only print the result: what matters is
    whether it raises. *)
Definition py_slice (v : value) (n : nat) : res value :=
  match v with
  | VList l => Ok (VList (take n l))
  | VStr s => Ok (VStr (str_take n s))
  | VDict _ => Raise (Exn TypeError "unhashable type: 'slice'")
  | _ => Raise (Exn TypeError ("'" ++ type_name v ++ "' object is not subscriptable"))
  end.

(** [v.lower()] *)
Definition py_lower (v : value) : res string :=
  match v with
  | VStr s => Ok (lower s)
  | _ => Raise (no_attribute v "lower")
  end.

(** [s += v] for a str [s] *)
Definition str_iadd (s : string) (v : value) : res string :=
  match v with
  | VStr t => Ok (s ++ t)
  | _ => Raise (Exn TypeError
                  ("can only concatenate str (not " ++ dq ++ type_name v ++ dq ++ ") to str"))
  end.

(** [result[k] = v] *)
Definition set (k : string) (v : value) : M dict unit :=
  modify (fun r : dict => <[k := v]> r).

End Python.

(** ** The network, as the probes see it *)

(** A [requests.Response]: [iter_lines] lists the lines the streaming read
    yields, each with the reading [time.time()] gives when the loop body
    starts on it; [iter_error] is the exception the iterator raises once they
    are exhausted, if the connection fails there. *)
Record response (F : Type) := Response {
  status_code : Z;
  text : string;
  iter_lines : list (string * F);
  iter_error : option exn
}.

Arguments Response {F}.
Arguments status_code {F}.
Arguments text {F}.
Arguments iter_lines {F}.
Arguments iter_error {F}.

(** One call of [_make_request] with the clock around it: [t_start] is read
    before the call; [reply] is what the call returns or raises; [t_end] is
    the reading taken once the response is in (for a streaming call, once
    the loop over its lines is left). *)
Record exchange (F : Type) := Exchange {
  t_start : F;
  reply : res (response F);
  t_end : F
}.

Arguments Exchange {F}.
Arguments t_start {F}.
Arguments reply {F}.
Arguments t_end {F}.

(** The two attributes of [OpenAITester] the probes and the orchestrator
    write. *)
Record tester (F : Type) := Tester {
  results : gmap string (value F);
  all_test_history : list (value F)
}.

Arguments Tester {F}.
Arguments results {F}.
Arguments all_test_history {F}.

(** The local variables of the loop over [response.iter_lines()]. *)
Record loop_state (F : Type) := LoopState {
  first_chunk_time : option F;
  chunk_times : list F;
  full_content : string;
  chunk_count : nat;
  raw_lines : list string;
  has_done : bool
}.

Arguments LoopState {F}.
Arguments first_chunk_time {F}.
Arguments chunk_times {F}.
Arguments full_content {F}.
Arguments chunk_count {F}.
Arguments raw_lines {F}.
Arguments has_done {F}.

Section OpenAITester.
Context {F : Type} `{PyFloat F}.

(** [json.loads]: the value, or the message of the [JSONDecodeError]. *)
Variable json_loads : string → string + value F.

(** [line.decode('utf-8')], and [str(line)] where that fails. *)
Variable decode : string → string.

Local Abbreviation value := (value F).
Local Abbreviation dict := (gmap string value).
Local Abbreviation response := (response F).
Local Abbreviation exchange := (exchange F).
Local Abbreviation tester := (tester F).
Local Abbreviation loop_state := (loop_state F).

(** [response.json()] *)
Definition response_json (r : response) : res value :=
  match json_loads (text r) with
  | inr v => Ok v
  | inl msg => Raise (Exn JSONDecodeError msg)
  end.

(** [f"HTTP {response.status_code}: {response.text[:200]}"] *)
Definition http_error (r : response) : string :=
  "HTTP " ++ pretty (status_code r) ++ ": " ++ str_take 200 (text r).

(** The [except] clauses of the chat, streaming, tool-calling and embeddings
    probes. *)
Definition handle (e : exn) : M dict unit :=
  match exn_cls e with
  | Timeout => set "error" (VStr "请求超时")
  | _ => set "error" (VStr (exn_msg e))
  end.

(** The [except] clauses of [test_models_list]. *)
Definition handle_models (e : exn) : M dict unit :=
  match exn_cls e with
  | Timeout => set "error" (VStr "请求超时")
  | ConnectionError => set "error" (VStr ("连接错误: " ++ exn_msg e))
  | _ => set "error" (VStr (exn_msg e))
  end.

(** [try: body  except ...: handler], on the dictionary [result]. *)
Definition try_except (body : M dict unit) (handler : exn → M dict unit)
    (result : dict) : dict :=
  match body result with
  | (r, Ok _) => r
  | (r, Raise e) => (handler e r).1
  end.

(** [self.results[key] = result; return result] *)
Definition store (key : string) (result : dict) : M tester value :=
  fun t => (Tester (<[key := VDict result]> (results t)) (all_test_history t),
            Ok (VDict result)).

(** *** test_models_list *)

Definition models_try (x : exchange) : M dict unit :=
  response <- lift (reply x) ;;
  set "response_time" (VFloat (fround3 (fsub (t_end x) (t_start x)))) ;;
  if status_code response =? 200 then
    data <- lift (response_json response) ;;
    models <- lift (py_get data "data" (VList [])) ;;
    set "success" (VBool true) ;;
    ids <- lift (res_bind (py_iter models)
                   (mapM_res (fun m => py_get m "id" (VStr "unknown")))) ;;
    set "models" (VList ids)
  else
    set "error" (VStr (http_error response)).

(** The dictionary [result] starts as. *)
Definition models_result : dict :=
  {[ "success" := VBool false; "models" := VList [];
     "error" := VNone; "response_time" := VInt 0 ]}.

Definition test_models_list (x : exchange) : M tester value :=
  let result := models_result in
  store "models_list" (try_except (models_try x) handle_models result).

(** *** The choice of a model when none is given *)

(** The [for m in ...: if kw in m.lower(): model = m; break] loop. *)
Fixpoint first_match (kw : string) (l : list value) : res (option value) :=
  match l with
  | [] => Ok None
  | m :: l' =>
      res_bind (py_lower m) (fun s =>
        if contains kw s then Ok (Some m) else first_match kw l')
  end.

(** The model-selection block of the chat, streaming and tool-calling
    probes. *)
Definition choose_model (rs : dict) (model : value) : res value :=
  if truthy model then Ok model
  else
    let models_result := default (VDict ∅) (rs !! "models_list") in
    res_bind (py_get models_result "models" VNone) (fun ms =>
      if truthy ms then
        res_bind (py_item models_result "models") (fun ms' =>
        res_bind (py_iter ms') (fun l =>
        res_bind (first_match "gpt" l) (fun found =>
          let model' := default model found in
          if truthy model' then Ok model'
          else res_bind (py_item models_result "models") py_item0)))
      else Ok (VStr "gpt-3.5-turbo")).

(** The model-selection block of [test_embeddings]. *)
Definition choose_embedding_model (rs : dict) (model : value) : res value :=
  if truthy model then Ok model
  else
    let models_result := default (VDict ∅) (rs !! "models_list") in
    res_bind (py_get models_result "models" VNone) (fun ms =>
      if truthy ms then
        res_bind (py_item models_result "models") (fun ms' =>
        res_bind (py_iter ms') (fun l =>
        res_bind (first_match "embed" l) (fun found =>
          let model' := default model found in
          if truthy model' then Ok model'
          else Ok (VStr "text-embedding-ada-002"))))
      else Ok (VStr "text-embedding-ada-002")).

(** *** test_chat_completion *)

(** [data.get("choices", [{}])[0].get("message", {})] *)
Definition first_message (data : value) : res value :=
  res_bind (py_get data "choices" (VList [VDict ∅])) (fun cs =>
  res_bind (py_item0 cs) (fun c => py_get c "message" (VDict ∅))).

Definition chat_content (data : value) : res value :=
  res_bind (first_message data) (fun m => py_get m "content" (VStr "")).

Definition chat_try (x : exchange) : M dict unit :=
  response <- lift (reply x) ;;
  set "response_time" (VFloat (fround3 (fsub (t_end x) (t_start x)))) ;;
  if status_code response =? 200 then
    data <- lift (response_json response) ;;
    content <- lift (chat_content data) ;;
    set "success" (VBool true) ;;
    set "response" content
  else
    set "error" (VStr (http_error response)).

Definition chat_result (model : value) : dict :=
  {[ "success" := VBool false; "model_used" := model; "response" := VNone;
     "error" := VNone; "response_time" := VInt 0 ]}.

Definition test_chat_completion (model : value) (x : exchange) : M tester value :=
  let result := chat_result model in
  model' <- (fun t => (t, choose_model (results t) model)) ;;
  let result := <["model_used" := model']> result in
  store "chat_completion" (try_except (chat_try x) handle result).

(** *** test_stream_mode *)

Definition loop_init : loop_state :=
  LoopState None [] "" 0 [] false.

(** The block run for a truthy [content]: the first arrival is noted, the
    arrival time appended, the text accumulated and the fragment counted, in
    that order. *)
Definition fragment (start now : F) (content : value) : M loop_state unit :=
  modify (fun st =>
    LoopState
      (match first_chunk_time st with
       | None => Some (fsub now start)
       | Some t => Some t
       end)
      (chunk_times st ++ [fsub now start])
      (full_content st) (chunk_count st) (raw_lines st) (has_done st)) ;;
  full <- gets full_content ;;
  full' <- lift (str_iadd full content) ;;
  modify (fun st =>
    LoopState (first_chunk_time st) (chunk_times st) full'
      (S (chunk_count st)) (raw_lines st) (has_done st)).

(** [data.get("choices", [{}])[0].get("delta", {})] *)
Definition first_delta (data : value) : res value :=
  res_bind (py_get data "choices" (VList [VDict ∅])) (fun cs =>
  res_bind (py_item0 cs) (fun c => py_get c "delta" (VDict ∅))).

(** The body of [for line in response.iter_lines()]; the answer is [true]
    when the body leaves the loop by [break]. *)
Definition on_line (start : F) (line : string) (now : F) : M loop_state bool :=
  if String.eqb line "" then ret false
  else
    let line_str := decode line in
    modify (fun st =>
      LoopState (first_chunk_time st) (chunk_times st) (full_content st)
        (chunk_count st) (raw_lines st ++ [line_str]) (has_done st)) ;;
    if startswith line_str "data: " then
      let data_str := str_drop 6 line_str in
      if String.eqb (strip data_str) "[DONE]" then
        modify (fun st =>
          LoopState (first_chunk_time st) (chunk_times st) (full_content st)
            (chunk_count st) (raw_lines st) true) ;;
        ret true
      else
        match json_loads data_str with
        | inl _ => ret false
        | inr data =>
            delta <- lift (first_delta data) ;;
            content <- lift (py_get delta "content" (VStr "")) ;;
            (if truthy content then fragment start now content else ret tt) ;;
            ret false
        end
    else if startswith line_str "{" then
      match json_loads line_str with
      | inl _ => ret false
      | inr data =>
          delta <- lift (first_delta data) ;;
          content <- lift (py_get delta "content" (VStr "")) ;;
          content <- (if truthy content then ret content
                      else lift (py_get data "content" (VStr ""))) ;;
          content <- (if truthy content then ret content
                      else lift (py_get data "completion" (VStr ""))) ;;
          (if truthy content then fragment start now content else ret tt) ;;
          ret false
      end
    else if startswith line_str "event:" then ret false
    else ret false.

Fixpoint read_lines (start : F) (ls : list (string * F)) (err : option exn)
    : M loop_state unit :=
  match ls with
  | [] =>
      match err with
      | None => ret tt
      | Some e => lift (Raise e)
      end
  | (line, now) :: ls' =>
      stop <- on_line start line now ;;
      if (stop : bool) then ret tt else read_lines start ls' err
  end.

(** [[chunk_times[i+1] - chunk_times[i] for i in range(len(chunk_times)-1)]] *)
Fixpoint intervals (ts : list F) : list F :=
  match ts with
  | a :: tl =>
      match tl with
      | b :: _ => fsub b a :: intervals tl
      | [] => []
      end
  | [] => []
  end.

(** [sum(intervals) / len(intervals)] *)
Definition avg_interval (ts : list F) : F :=
  fdiv_int (fsum (intervals ts)) (Z.of_nat (length (intervals ts))).

(** The analysis that follows the loop ("分析流式质量").  The request the
    last branch sends for comparison only prints, inside its own
    [try/except Exception], and is left out. *)
Definition analyse (st : loop_state) : M dict unit :=
  if (0 <? chunk_count st)%nat then
    set "chunks_received" (VInt (Z.of_nat (chunk_count st))) ;;
    set "full_response" (VStr (full_content st)) ;;
    if (1 <? length (chunk_times st))%nat then
      if fgt (avg_interval (chunk_times st)) f_0_01 && (3 <=? chunk_count st)%nat then
        set "is_real_stream" (VBool true) ;;
        set "stream_quality" (VStr "excellent") ;;
        set "success" (VBool true)
      else if (2 <=? chunk_count st)%nat then
        set "is_real_stream" (VBool true) ;;
        set "stream_quality" (VStr "good") ;;
        set "success" (VBool true)
      else
        set "stream_quality" (VStr "poor") ;;
        set "success" (VBool true)
    else
      set "stream_quality" (VStr "poor") ;;
      set "success" (VBool true)
  else if negb (String.eqb (full_content st) "") then
    set "success" (VBool true) ;;
    set "chunks_received" (VInt 1) ;;
    set "full_response" (VStr (full_content st)) ;;
    set "stream_quality" (VStr "non-standard")
  else
    set "success" (VBool false) ;;
    if has_done st && (length (raw_lines st) <=? 2)%nat then
      set "error" (VStr "API 返回空流式响应 (只有 [DONE])") ;;
      set "stream_quality" (VStr "not_supported")
    else
      set "error" (VStr "未收到有效的流式数据") ;;
      set "stream_quality" (VStr "unknown").

(** The loop of a read, from the initial locals: the locals when the loop is
    left, and whether it was left by an exception. *)
Definition run_lines (x : exchange) (r : response) : loop_state * res unit :=
  read_lines (t_start x) (iter_lines r) (iter_error r) loop_init.

Definition stream_try (x : exchange) : M dict unit :=
  response <- lift (reply x) ;;
  if status_code response =? 200 then
    match run_lines x response with
    | (_, Raise e) => lift (Raise e)
    | (st, Ok _) =>
        set "response_time" (VFloat (fround3 (fsub (t_end x) (t_start x)))) ;;
        set "first_chunk_time"
          (match first_chunk_time st with
           | Some t => if fnonzero t then VFloat (fround3 t) else VInt 0
           | None => VInt 0
           end) ;;
        analyse st
    end
  else
    set "error" (VStr (http_error response)).

Definition stream_result (model : value) : dict :=
  {[ "success" := VBool false; "model_used" := model;
     "chunks_received" := VInt 0; "full_response" := VStr "";
     "error" := VNone; "response_time" := VInt 0;
     "is_real_stream" := VBool false; "first_chunk_time" := VInt 0;
     "stream_quality" := VStr "unknown" ]}.

Definition test_stream_mode (model : value) (x : exchange) : M tester value :=
  let result := stream_result model in
  model' <- (fun t => (t, choose_model (results t) model)) ;;
  let result := <["model_used" := model']> result in
  store "stream_mode" (try_except (stream_try x) handle result).

(** *** test_function_calling *)

Definition tools_try (x : exchange) : M dict unit :=
  response <- lift (reply x) ;;
  set "response_time" (VFloat (fround3 (fsub (t_end x) (t_start x)))) ;;
  if status_code response =? 200 then
    data <- lift (response_json response) ;;
    message <- lift (first_message data) ;;
    tool_calls <- lift (py_get message "tool_calls" (VList [])) ;;
    if truthy tool_calls then
      set "success" (VBool true) ;;
      set "tool_called" (VBool true) ;;
      name <- lift (res_bind (py_item0 tool_calls) (fun c =>
                    res_bind (py_get c "function" (VDict ∅)) (fun f =>
                    py_get f "name" VNone))) ;;
      set "tool_name" name ;;
      args <- lift (res_bind (py_item0 tool_calls) (fun c =>
                    res_bind (py_get c "function" (VDict ∅)) (fun f =>
                    py_get f "arguments" VNone))) ;;
      set "tool_arguments" args
    else
      content <- lift (py_get message "content" (VStr "")) ;;
      if truthy content then
        set "success" (VBool true) ;;
        set "tool_called" (VBool false) ;;
        _ <- lift (py_slice content 100) ;;
        ret tt
      else
        set "error" (VStr "未收到有效响应")
  else
    set "error" (VStr (http_error response)).

Definition tools_result (model : value) : dict :=
  {[ "success" := VBool false; "model_used" := model;
     "tool_called" := VBool false; "tool_name" := VNone;
     "tool_arguments" := VNone; "error" := VNone;
     "response_time" := VInt 0 ]}.

Definition test_function_calling (model : value) (x : exchange) : M tester value :=
  let result := tools_result model in
  model' <- (fun t => (t, choose_model (results t) model)) ;;
  let result := <["model_used" := model']> result in
  store "function_calling" (try_except (tools_try x) handle result).

(** *** test_embeddings *)

Definition embeddings_try (x : exchange) : M dict unit :=
  response <- lift (reply x) ;;
  set "response_time" (VFloat (fround3 (fsub (t_end x) (t_start x)))) ;;
  if status_code response =? 200 then
    data <- lift (response_json response) ;;
    embeddings <- lift (res_bind (py_get data "data" (VList [VDict ∅])) (fun ds =>
                        res_bind (py_item0 ds) (fun d =>
                        py_get d "embedding" (VList [])))) ;;
    set "success" (VBool true) ;;
    n <- lift (py_len embeddings) ;;
    set "dimensions" (VInt n)
  else
    set "error" (VStr (http_error response)).

Definition embeddings_result (model : value) : dict :=
  {[ "success" := VBool false; "model_used" := model;
     "dimensions" := VInt 0; "error" := VNone; "response_time" := VInt 0 ]}.

Definition test_embeddings (model : value) (x : exchange) : M tester value :=
  let result := embeddings_result model in
  model' <- (fun t => (t, choose_embedding_model (results t) model)) ;;
  let result := <["model_used" := model']> result in
  store "embeddings" (try_except (embeddings_try x) handle result).

(** *** test_single_model *)

(** The two statements under "清空之前的测试结果（保留模型列表）". *)
Definition reset_results (model : value) : M tester unit :=
  modify (fun t =>
    let models_list := default (VDict ∅) (results t !! "models_list") in
    Tester {[ "models_list" := models_list; "tested_model" := model ]}
      (all_test_history t)).

(** [self.all_test_history.append({...})] *)
Definition append_history (model : value) : M tester unit :=
  modify (fun t =>
    let rs := results t in
    let entry : dict :=
      {[ "model" := model;
         "chat" := default (VDict ∅) (rs !! "chat_completion");
         "stream" := default (VDict ∅) (rs !! "stream_mode");
         "tools" := default (VDict ∅) (rs !! "function_calling");
         "embeddings" := default (VDict ∅) (rs !! "embeddings") ]} in
    Tester rs (all_test_history t ++ [VDict entry])).

(** One pass over a model; [xc], [xs] and [xt] are the exchanges of the
    chat, streaming and tool-calling requests.  [_print_summary] prints. *)
Definition test_single_model (model : value) (xc xs xt : exchange)
    : M tester value :=
  reset_results model ;;
  _ <- test_chat_completion model xc ;;
  _ <- test_stream_mode model xs ;;
  _ <- test_function_calling model xt ;;
  append_history model ;;
  rs <- gets results ;;
  ret (VDict rs).

End OpenAITester.

(** ** Notions the statements use *)

Section Notions.
Context {F : Type} `{PyFloat F}.

(** What the loop keeps between two lines: every counted fragment has its
    arrival time, and no text is accumulated without a counted fragment. *)
Definition consistent (st : loop_state F) : Prop :=
  length (chunk_times st) = chunk_count st ∧
  (chunk_count st = 0%nat → full_content st = "").

(** The classification of a completed read, by the number of fragments and
    the mean gap alone. *)
Definition quality_of (st : loop_state F) : string :=
  match chunk_count st with
  | 0%nat => if has_done st && (length (raw_lines st) <=? 2)%nat
             then "not_supported" else "unknown"
  | 1%nat => "poor"
  | 2%nat => "good"
  | _ => if fgt (avg_interval (chunk_times st)) f_0_01 then "excellent" else "good"
  end.


(** The five probes. *)
Inductive probe := Models | Chat | Stream | Tools | Embeddings.

Definition run_probe (json_loads : string → string + value F)
    (decode : string → string) (p : probe) (model : value F)
    (x : exchange F) : M (tester F) (value F) :=
  match p with
  | Models => test_models_list json_loads x
  | Chat => test_chat_completion json_loads model x
  | Stream => test_stream_mode json_loads decode model x
  | Tools => test_function_calling json_loads model x
  | Embeddings => test_embeddings json_loads model x
  end.

(** The body of the probe's [try]. *)
Definition probe_try (json_loads : string → string + value F)
    (decode : string → string) (p : probe) (x : exchange F)
    : M (gmap string (value F)) unit :=
  match p with
  | Models => models_try json_loads x
  | Chat => chat_try json_loads x
  | Stream => stream_try json_loads decode x
  | Tools => tools_try json_loads x
  | Embeddings => embeddings_try json_loads x
  end.

(** [result] when the probe enters its [try], for the model [m] it runs
    with. *)
Definition probe_result (p : probe) (model m : value F) : gmap string (value F) :=
  match p with
  | Models => models_result
  | Chat => <["model_used" := m]> (chat_result model)
  | Stream => <["model_used" := m]> (stream_result model)
  | Tools => <["model_used" := m]> (tools_result model)
  | Embeddings => <["model_used" := m]> (embeddings_result model)
  end.

(** The model the probe runs with: [test_models_list] takes none, the
    others choose one when they are given none. *)
Definition selected (rs : gmap string (value F)) (p : probe) (model : value F)
    : res (value F) :=
  match p with
  | Models => Ok model
  | Embeddings => choose_embedding_model rs model
  | _ => choose_model rs model
  end.

(** The key of [self.results] the probe writes. *)
Definition probe_key (p : probe) : string :=
  match p with
  | Models => "models_list"
  | Chat => "chat_completion"
  | Stream => "stream_mode"
  | Tools => "function_calling"
  | Embeddings => "embeddings"
  end.

(** What the probe's [except] clauses write to [result["error"]]. *)
Definition reported (p : probe) (e : exn) : string :=
  match exn_cls e, p with
  | Timeout, _ => "请求超时"
  | ConnectionError, Models => "连接错误: " ++ exn_msg e
  | _, _ => exn_msg e
  end.

End Notions.

(** ** Exact arithmetic as an instance of the float operations *)

(** [round(q, 3)], halves to the even neighbour. *)
Definition Qround3 (q : Q) : Q :=
  let n := Qnum q * 1000 in
  let d := Z.pos (Qden q) in
  let fl := n / d in
  let twice := 2 * (n mod d) in
  let r := if twice <? d then fl
           else if d <? twice then fl + 1
           else if Z.even fl then fl else fl + 1 in
  Qred (r # 1000).

#[export] Instance Q_float : PyFloat Q := {|
  fsub a b := Qred (a - b);
  fsum l := Qred (fold_left Qplus l 0%Q);
  fdiv_int x n := Qred (x / inject_Z n);
  fgt a b := negb (Qle_bool a b);
  f_0_01 := (1 # 100)%Q;
  fround3 := Qround3;
  fnonzero q := negb (Qeq_bool q 0)
|}.

(** ** Concrete exchanges *)

Module Run.

Definition q (s : string) : string := dq ++ s ++ dq.

(** [{"choices":[{"delta":{"content":"<c>"}}]}] *)
Definition delta_text (c : string) : string :=
  "{" ++ q "choices" ++ ":[{" ++ q "delta" ++ ":{" ++ q "content" ++ ":" ++ q c ++ "}}]}".

Definition delta_value (c : string) : value Q :=
  VDict {[ "choices" := VList [VDict {[ "delta" := VDict {[ "content" := VStr c ]} ]}] ]}.

(** [{"content":"hi"}] *)
Definition bare_text : string := "{" ++ q "content" ++ ":" ++ q "hi" ++ "}".

Definition bare_value : value Q := VDict {[ "content" := VStr "hi" ]}.

(** [{"data":null}] *)
Definition null_data_text : string := "{" ++ q "data" ++ ":null}".

Definition null_data_value : value Q := VDict {[ "data" := VNone ]}.

(** [{"choices":[{"message":{"content":"hello"}}]}] *)
Definition hello_text : string :=
  "{" ++ q "choices" ++ ":[{" ++ q "message" ++ ":{" ++ q "content" ++ ":" ++ q "hello" ++ "}}]}".

Definition hello_value : value Q :=
  VDict {[ "choices" := VList [VDict {[ "message" := VDict {[ "content" := VStr "hello" ]} ]}] ]}.

(** The arguments of the call, [{"city":"Beijing"}], as the string the
    response carries. *)
Definition city_args : string := "{" ++ q "city" ++ ":" ++ q "Beijing" ++ "}".

Definition bs : string := String (ascii_of_nat 92) EmptyString.

(** [{"choices":[{"message":{"tool_calls":[{"function":{"name":"get_weather",
    "arguments":"{\"city\":\"Beijing\"}"}}]}}]}] *)
Definition weather_text : string :=
  "{" ++ q "choices" ++ ":[{" ++ q "message" ++ ":{" ++ q "tool_calls" ++ ":[{"
  ++ q "function" ++ ":{" ++ q "name" ++ ":" ++ q "get_weather" ++ ","
  ++ q "arguments" ++ ":" ++ dq ++ "{" ++ bs ++ dq ++ "city" ++ bs ++ dq ++ ":"
  ++ bs ++ dq ++ "Beijing" ++ bs ++ dq ++ "}" ++ dq ++ "}}]}}]}".

Definition weather_value : value Q :=
  VDict {[ "choices" := VList [VDict {[ "message" := VDict {[ "tool_calls" :=
    VList [VDict {[ "function" := VDict {[ "name" := VStr "get_weather";
                                            "arguments" := VStr city_args ]} ]}] ]} ]}] ]}.

(** [json.loads] on the texts above; any other text is taken as one it
    rejects. *)
Definition table : list (string * value Q) :=
  [ (delta_text "1", delta_value "1"); (delta_text "2", delta_value "2");
    (delta_text "3", delta_value "3"); (delta_text "4", delta_value "4");
    (delta_text "5", delta_value "5");
    (bare_text, bare_value); (null_data_text, null_data_value);
    (hello_text, hello_value); (weather_text, weather_value);
    ("{}", VDict ∅) ].

Definition json_loads (s : string) : string + value Q :=
  match find (fun e => String.eqb s e.1) table with
  | Some e => inr e.2
  | None => inl "Expecting value: line 1 column 1 (char 0)"
  end.

(** Received lines are ASCII: decoding leaves them as they are. *)
Definition decode (line : string) : string := line.

Definition fresh : tester Q := Tester ∅ [].

Definition gpt4 : value Q := VStr "gpt-4".

(** A plain (non-streaming) response. *)
Definition plain (code : Z) (body : string) : exchange Q :=
  Exchange 0%Q (Ok (Response code body [] None)) (1 # 2)%Q.

(** A streaming response with status 200. *)
Definition streamed (ls : list (string * Q)) : exchange Q :=
  Exchange 0%Q (Ok (Response 200 "" ls None)) 2%Q.


(** Three fragments that arrive together. *)
Definition three_at_once : list (string * Q) :=
  [ ("data: " ++ delta_text "1", 1%Q);
    ("data: " ++ delta_text "2", 1%Q);
    ("data: " ++ delta_text "3", 1%Q);
    ("data: [DONE]", 1%Q) ].


(** Scenario D: one fragment, then the sentinel at once. *)
Definition one_fragment : list (string * Q) :=
  [ ("data: " ++ delta_text "1", 1%Q); ("data: [DONE]", 1%Q) ].


(** Three lines without content and no sentinel. *)
Definition three_empty : list (string * Q) :=
  [ ("event: ping", 1%Q); (": keep-alive", 1%Q); ("data: {}", 1%Q) ].



Definition field (r : M (tester Q) (value Q)) (k : string) : option (value Q) :=
  match (r fresh).2 with
  | Ok (VDict d) => d !! k
  | _ => None
  end.

End Run.

(** * The client, the prompts and the session *)

(** ** More of Python *)

Definition upper_ascii (c : ascii) : ascii :=
  let n := nat_of_ascii c in
  if ((97 <=? n)%nat && (n <=? 122)%nat)%bool then ascii_of_nat (n - 32) else c.

Fixpoint upper (s : string) : string :=
  match s with
  | EmptyString => EmptyString
  | String c s' => String (upper_ascii c) (upper s')
  end.

Definition is_slash (c : ascii) : bool := Ascii.eqb c "/"%char.

Fixpoint lstrip_slash (l : list ascii) : list ascii :=
  match l with
  | c :: l' => if is_slash c then lstrip_slash l' else l
  | [] => []
  end.

(** [s.rstrip('/')] *)
Definition rstrip_slash (s : string) : string :=
  string_of_list_ascii (rev (lstrip_slash (rev (list_ascii_of_string s)))).

Section PythonMore.
Context {F : Type} `{PyFloat F}.

Local Abbreviation value := (value F).

(** [v == s] for a str [s] *)
Definition is_str (s : string) (v : value) : bool :=
  match v with
  | VStr t => String.eqb t s
  | _ => false
  end.

(** [isinstance(v, dict)] *)
Definition is_dict (v : value) : bool :=
  match v with
  | VDict _ => true
  | _ => false
  end.

(** [x in v] for a str [x] *)
Definition py_in (x : string) (v : value) : res bool :=
  match v with
  | VList l => Ok (existsb (is_str x) l)
  | VStr s => Ok (contains x s)
  | VDict d => Ok (bool_decide (is_Some (d !! x)))
  | _ => Raise (Exn TypeError ("argument of type '" ++ type_name v ++ "' is not iterable"))
  end.

End PythonMore.

(** ** __init__ and _make_request *)

(** The attributes [__init__] sets and [_make_request] reads. *)
Record client := Client {
  base_url : string;
  api_key : string;
  headers : gmap string string
}.

(** What [_make_request] hands to [requests]. *)
Inductive http_call (F : Type) : Type :=
| HttpGet (url : string) (hdrs : gmap string string) (timeout : Z)
| HttpPost (url : string) (hdrs : gmap string string) (json : value F)
    (stream : bool) (timeout : Z).

Arguments HttpGet {F}.
Arguments HttpPost {F}.

Definition new_client (url key : string) : client :=
  Client (rstrip_slash url) key
    {[ "Authorization" := "Bearer " ++ key; "Content-Type" := "application/json" ]}.

Section Session.
Context {F : Type} `{PyFloat F}.

Variable json_loads : string → string + value F.
Variable decode : string → string.

(** [int(s)] for a str: the integer, or nothing where Python raises
    [ValueError]. *)
Variable py_int : string → option Z.

Local Abbreviation value := (value F).
Local Abbreviation dict := (gmap string value).
Local Abbreviation exchange := (exchange F).
Local Abbreviation tester := (tester F).

(** [requests.get] and [requests.post] are the parameter [send]; [data] is
    [None] where no body is given.  [method.upper()] is taken on ASCII
    letters.  The [ValueError] of the last line is not one of the classes an
    [except] clause of this file tells apart: it is an [OtherException]. *)
Definition _make_request (send : http_call F → res (response F)) (self : client)
    (method endpoint : string) (data : value) (stream : bool) (timeout : Z)
    : res (response F) :=
  let url := base_url self ++ endpoint in
  if String.eqb (upper method) "GET" then
    send (HttpGet url (headers self) timeout)
  else if String.eqb (upper method) "POST" then
    send (HttpPost url (headers self) data stream timeout)
  else Raise (Exn OtherException ("不支持的 HTTP 方法: " ++ method)).

(** ** select_model *)

Definition chat_keywords : list string :=
  ["gpt"; "claude"; "llama"; "qwen"; "glm"; "chat"].

(** The loop that sorts the models into [chat_models], [embed_models] and
    [other_models]. *)
Fixpoint classify (models : list value)
    : res (list value * list value * list value) :=
  match models with
  | [] => Ok ([], [], [])
  | m :: models' =>
      res_bind (py_lower m) (fun m_lower =>
      res_bind (classify models') (fun '(chat_models, embed_models, other_models) =>
        if contains "embed" m_lower then
          Ok (chat_models, m :: embed_models, other_models)
        else if existsb (fun x => contains x m_lower) chat_keywords then
          Ok (m :: chat_models, embed_models, other_models)
        else Ok (chat_models, embed_models, m :: other_models)))
  end.

(** [[m for m in models if kw in m.lower()]] *)
Fixpoint matching (kw : string) (models : list value) : res (list value) :=
  match models with
  | [] => Ok []
  | m :: models' =>
      res_bind (py_lower m) (fun m_lower =>
      res_bind (matching kw models') (fun ms =>
        Ok (if contains kw m_lower then m :: ms else ms)))
  end.

(** What one turn of the [while True] loop does with the text it read:
    it returns a value, or prints and asks again. *)
Inductive turn := Return (v : value) | Again.

Definition on_choice (show_exit_option : bool) (models : value)
    (chat_models all_models_ordered : list value) (choice : string) : res turn :=
  if String.eqb choice "" then
    match chat_models with
    | selected :: _ => Ok (Return selected)
    | [] =>
        match all_models_ordered with
        | selected :: _ => Ok (Return selected)
        | [] => Ok (Return VNone)
        end
    end
  else
    match py_int choice with
    | Some idx =>
        if show_exit_option && (idx =? 0) then Ok (Return (VStr "__EXIT__"))
        else
          let idx := idx - 1 in
          if (0 <=? idx) && (idx <? Z.of_nat (length all_models_ordered)) then
            match all_models_ordered !! Z.to_nat idx with
            | Some selected => Ok (Return selected)
            | None => Raise (Exn IndexError "list index out of range")
            end
          else Ok Again
    | None =>
        res_bind (py_in choice models) (fun listed =>
          if listed then Ok (Return (VStr choice))
          else
            res_bind (res_bind (py_iter models) (matching (lower choice)))
              (fun matches =>
                 match matches with
                 | [m] => Ok (Return m)
                 | _ => Ok Again
                 end))
    end.

(** The console is the list of the lines it will give; [console.input]
    on an empty list raises [EOFError], with this text. *)
Definition end_of_input : exn := Exn OtherException "EOF when reading a line".

(** The [while True] loop on the lines the console gives; the answer comes
    with the lines not read. *)
Fixpoint ask (show_exit_option : bool) (models : value)
    (chat_models all_models_ordered : list value) (inputs : list string)
    : res (value * list string) :=
  match inputs with
  | [] => Raise end_of_input
  | line :: inputs' =>
      res_bind (on_choice show_exit_option models chat_models all_models_ordered
                  (strip line))
        (fun t =>
           match t with
           | Return v => Ok (v, inputs')
           | Again => ask show_exit_option models chat_models all_models_ordered inputs'
           end)
  end.

Definition select_model (show_exit_option : bool) (inputs : list string)
    (rs : dict) : res (value * list string) :=
  let models_result := default (VDict ∅) (rs !! "models_list") in
  res_bind (py_get models_result "models" (VList [])) (fun models =>
    if negb (truthy models) then Ok (VNone, inputs)
    else
      res_bind (py_iter models) (fun ms =>
      res_bind (classify ms) (fun '(chat_models, embed_models, other_models) =>
        ask show_exit_option models chat_models
          (chat_models ++ embed_models ++ other_models) inputs))).

(** ** select_embedding_model *)


(** ** run_loop_mode and run_all_tests *)

(** How a session stands when the exchanges given to it are used up or the
    loop is left: [Ended] when [run_loop_mode] has returned, with the lines
    and the rounds it did not use; [Running] when the loop asks for a round
    that was not given. *)
Inductive session :=
| Ended (inputs : list string) (rounds : list (exchange * exchange * exchange))
| Running (inputs : list string).

(** The [while True] loop of [run_loop_mode].  Each round is the three
    exchanges of one [test_single_model]. *)
Fixpoint test_loop (rounds : list (exchange * exchange * exchange))
    (inputs : list string) : M tester session :=
  fun t =>
    match select_model true inputs (results t) with
    | Raise e => (t, Raise e)
    | Ok (selected_model, inputs') =>
        if is_str "__EXIT__" selected_model then (t, Ok (Ended inputs' rounds))
        else
          let selected_model :=
            if truthy selected_model then selected_model
            else VStr "gpt-3.5-turbo" in
          match rounds with
          | [] => (t, Ok (Running inputs'))
          | (xc, xs, xt) :: rounds' =>
              (_ <- test_single_model json_loads decode selected_model xc xs xt ;;
               test_loop rounds' inputs') t
          end
    end.

Definition run_loop_mode (xm : exchange)
    (rounds : list (exchange * exchange * exchange)) (inputs : list string)
    : M tester session :=
  _ <- test_models_list json_loads xm ;;
  rs <- gets results ;;
  success <- lift (py_get (default (VDict ∅) (rs !! "models_list")) "success" VNone) ;;
  if negb (truthy success) then ret (Ended inputs rounds)
  else test_loop rounds inputs.


(** ** The totals of _print_summary *)

(** [test_results], [passed] and [total] at the end of [_print_summary]:
    the pair is [(passed, total)]. *)
Definition summary_totals (rs : dict) : nat * nat :=
  let test_results := filter (fun r => is_dict r = true) (map_to_list rs).*2 in
  (length (filter (fun r => truthy (default VNone
                                      (match r with
                                       | VDict d => d !! "success"
                                       | _ => None
                                       end)) = true) test_results),
   length test_results).

(** ** Notions the further statements use *)

(** The result a probe returns when it runs with the model [model]. *)
Definition outcome (p : probe) (model : value) (x : exchange) : dict :=
  try_except (probe_try json_loads decode p x)
    (match p with Models => handle_models | _ => handle end)
    (probe_result p model model).

(** [r.get("success")] is truthy, for a dictionary [r]. *)
Definition succeeded (r : value) : bool :=
  match r with
  | VDict d => truthy (default VNone (d !! "success"))
  | _ => false
  end.

(** The store holds the models list [ms]. *)
Definition lists (rs : dict) (ms : list value) : Prop :=
  ∃ mr : dict, rs !! "models_list" = Some (VDict mr) ∧
               mr !! "models" = Some (VList ms).

End Session.

(** ** Concrete sessions *)

Module Console.

(** [int(s)] on ASCII text: an optional sign, then digits, with single
    underscores allowed between digits. *)
Fixpoint digits (acc : Z) (after_digit : bool) (s : string) : option Z :=
  match s with
  | EmptyString => if after_digit then Some acc else None
  | String c s' =>
      let n := nat_of_ascii c in
      if ((48 <=? n)%nat && (n <=? 57)%nat)%bool then
        digits (acc * 10 + Z.of_nat (n - 48)) true s'
      else if (Nat.eqb n 95 && after_digit)%bool then digits acc false s'
      else None
  end.

Definition py_int (s : string) : option Z :=
  match s with
  | String c s' =>
      if Ascii.eqb c "-"%char then Z.opp <$> digits 0 false s'
      else if Ascii.eqb c "+"%char then digits 0 false s'
      else digits 0 false s
  | EmptyString => None
  end.

Definition names (l : list string) : list (value Q) := VStr <$> l.

(** A store whose models list is [l]. *)
Definition listing (l : list (value Q)) : gmap string (value Q) :=
  {[ "models_list" :=
       VDict {[ "success" := VBool true; "models" := VList l;
                "error" := VNone; "response_time" := VInt 0 ]} ]}.

Definition four : list (value Q) :=
  names ["text-embedding-3-small"; "gpt-4"; "mistral-7b"; "Qwen2-72B"].

(** [{"data":[{"id":"gpt-4"},{"id":"text-embedding-3-small"}]}] *)
Definition two_models_text : string :=
  "{" ++ Run.q "data" ++ ":[{" ++ Run.q "id" ++ ":" ++ Run.q "gpt-4" ++ "},{"
  ++ Run.q "id" ++ ":" ++ Run.q "text-embedding-3-small" ++ "}]}".

Definition two_models_value : value Q :=
  VDict {[ "data" := VList [VDict {[ "id" := VStr "gpt-4" ]};
                            VDict {[ "id" := VStr "text-embedding-3-small" ]}] ]}.

(** [{"data":[]}] *)
Definition no_models_text : string := "{" ++ Run.q "data" ++ ":[]}".

Definition no_models_value : value Q := VDict {[ "data" := VList [] ]}.

(** [{"data":[{"embedding":[0.5,0.25,1.0]}]}] *)
Definition embedding_text : string :=
  "{" ++ Run.q "data" ++ ":[{" ++ Run.q "embedding" ++ ":[0.5,0.25,1.0]}]}".

Definition embedding_value : value Q :=
  VDict {[ "data" := VList [VDict {[ "embedding" :=
             VList [VFloat (1 # 2)%Q; VFloat (1 # 4)%Q; VFloat 1%Q] ]}] ]}.

Definition table : list (string * value Q) :=
  [ (two_models_text, two_models_value); (no_models_text, no_models_value);
    (embedding_text, embedding_value) ].

(** [json.loads] on the texts of [Run] and on those above. *)
Definition json_loads (s : string) : string + value Q :=
  match find (fun e => String.eqb s e.1) table with
  | Some e => inr e.2
  | None => Run.json_loads s
  end.

(** One round of a session: a chat reply, a one-fragment stream, a tool
    call. *)
Definition round : exchange Q * exchange Q * exchange Q :=
  (Run.plain 200 Run.hello_text, Run.streamed Run.one_fragment,
   Run.plain 200 Run.weather_text).

End Console.

(** * Properties *)

Section Theory.
Context {F : Type} `{PyFloat F}.
Variable json_loads : string → string + value F.
Variable decode : string → string.

Local Abbreviation value := (value F).
Local Abbreviation dict := (gmap string value).

(** ** The loop over the lines *)

Lemma fragment_ok start now content (st st' : loop_state F) u :
  fragment start now content st = (st', Ok u) →
  chunk_count st' = S (chunk_count st) ∧
  length (chunk_times st') = S (length (chunk_times st)) ∧
  has_done st' = has_done st.
Proof.
  unfold fragment, bind, modify, gets, lift. cbn.
  destruct (str_iadd (full_content st) content); intros [= <- _]; cbn.
  rewrite length_app. cbn. repeat split; lia.
Qed.

Lemma fragment_raise start now content (st st' : loop_state F) e :
  fragment start now content st = (st', Raise e) →
  chunk_count st' = chunk_count st ∧ has_done st' = has_done st ∧
  exn_cls e = TypeError.
Proof.
  unfold fragment, bind, modify, gets, lift. cbn.
  destruct content; cbn; intros [= <- <-]; cbn; auto.
Qed.

Lemma on_line_spec start line now (st st' : loop_state F) o :
  on_line json_loads decode start line now st = (st', o) →
  match o with
  | Ok stop =>
      (consistent st → consistent st') ∧ has_done st' = has_done st || stop
  | Raise _ => has_done st' = has_done st
  end.
Proof.
  unfold on_line, consistent.
  unfold bind, lift, ret, modify.
  intros Hrun.
  repeat case_match; simplify_eq.
  all: try match goal with
    | Hf : fragment _ _ _ _ = (_, Ok _) |- _ =>
        apply fragment_ok in Hf; cbn in Hf; destruct Hf as (? & ? & ?)
    | Hf : fragment _ _ _ _ = (_, Raise _) |- _ =>
        apply fragment_raise in Hf; cbn in Hf; destruct Hf as (? & ? & ?)
    end.
  all: cbn [chunk_times chunk_count full_content has_done] in *.
  all: rewrite ?orb_false_r, ?orb_true_r.
  all: try congruence.
  all: try (split; [| congruence]).
  all: try tauto.
  all: intros [? ?]; split; [lia | intros; lia].
Qed.

Lemma read_lines_spec start ls err (st st' : loop_state F) o :
  read_lines json_loads decode start ls err st = (st', o) →
  has_done st = false →
  match o with
  | Ok _ => consistent st → consistent st'
  | Raise _ => has_done st' = false
  end.
Proof.
  revert st. induction ls as [| [line now] ls IH]; intros st; cbn.
  - destruct err; unfold lift, ret; intros [= <- <-]; auto.
  - unfold bind at 1.
    destruct (on_line json_loads decode start line now st) as [st1 [stop | e]] eqn:Hline;
      apply on_line_spec in Hline.
    + destruct Hline as [Hc Hd]. destruct stop.
      * unfold ret. intros [= <- <-] _. exact Hc.
      * intros Hrest Hnd. rewrite Hnd in Hd. cbn in Hd.
        specialize (IH _ Hrest Hd). destruct o; auto.
    + intros [= <- <-] Hnd. congruence.
Qed.

Lemma run_lines_ok x r (st : loop_state F) u :
  run_lines json_loads decode x r = (st, Ok u) → consistent st.
Proof.
  intros Hrun. apply read_lines_spec in Hrun; [| reflexivity].
  apply Hrun. split; reflexivity.
Qed.


(** ** The probes, once a model is chosen *)

Lemma run_probe_result p model m x (t : tester F) :
  selected (results t) p model = Ok m →
  run_probe json_loads decode p model x t =
  store (probe_key p)
    (try_except (probe_try json_loads decode p x)
       (match p with Models => handle_models | _ => handle end)
       (probe_result p model m)) t.
Proof.
  destruct p; cbn [selected run_probe probe_try probe_result probe_key];
    intros Hm;
    [ reflexivity
    | unfold test_chat_completion
    | unfold test_stream_mode
    | unfold test_function_calling
    | unfold test_embeddings ];
    unfold bind; rewrite Hm; reflexivity.
Qed.

(** An exception inside [try] ends in the clause written for its class. *)
Lemma try_except_raise p x (r0 r1 : dict) e :
  probe_try json_loads decode p x r0 = (r1, Raise e) →
  try_except (probe_try json_loads decode p x)
    (match p with Models => handle_models | _ => handle end) r0
  = <["error" := VStr (reported p e)]> r1.
Proof.
  intros Hrun. unfold try_except. rewrite Hrun.
  unfold reported, handle, handle_models.
  destruct p, (exn_cls e); reflexivity.
Qed.

Lemma try_except_ok p x (r0 r1 : dict) u :
  probe_try json_loads decode p x r0 = (r1, Ok u) →
  try_except (probe_try json_loads decode p x)
    (match p with Models => handle_models | _ => handle end) r0 = r1.
Proof. intros Hrun. unfold try_except. rewrite Hrun. reflexivity. Qed.

(** The request itself raises: nothing was written before. *)
Lemma probe_try_request_raises p x (r0 : dict) e :
  reply x = Raise e →
  probe_try json_loads decode p x r0 = (r0, Raise e).
Proof.
  intros Hr.
  destruct p; cbn [probe_try];
    unfold models_try, chat_try, stream_try, tools_try, embeddings_try;
    unfold bind, lift; rewrite Hr; reflexivity.
Qed.

Lemma probe_try_status p x (r0 : dict) resp :
  reply x = Ok resp →
  status_code resp ≠ 200 →
  ∃ r1, probe_try json_loads decode p x r0
        = (<["error" := VStr (http_error resp)]> r1, Ok tt) ∧
        r1 !! "success" = r0 !! "success".
Proof.
  intros Hr Hs. apply Z.eqb_neq in Hs.
  destruct p; cbn [probe_try];
    unfold models_try, chat_try, stream_try, tools_try, embeddings_try;
    unfold bind, lift, set, modify; rewrite Hr, Hs;
    eexists; (split; [reflexivity |]);
    rewrite ?lookup_insert_ne by done; reflexivity.
Qed.

(** ** The streaming probe *)

Lemma stream_try_completed x (r0 : dict) resp st :
  reply x = Ok resp →
  status_code resp = 200 →
  run_lines json_loads decode x resp = (st, Ok tt) →
  stream_try json_loads decode x r0 =
  analyse st
    (<["first_chunk_time" :=
         match first_chunk_time st with
         | Some t => if fnonzero t then VFloat (fround3 t) else VInt 0
         | None => VInt 0
         end]>
       (<["response_time" := VFloat (fround3 (fsub (t_end x) (t_start x)))]> r0)).
Proof.
  intros Hr Hs Hrun. unfold stream_try, bind, lift.
  rewrite Hr, Hs. cbn [Z.eqb Pos.eqb]. rewrite Hrun. reflexivity.
Qed.

Lemma stream_try_failed x (r0 : dict) resp st e :
  reply x = Ok resp →
  status_code resp = 200 →
  run_lines json_loads decode x resp = (st, Raise e) →
  stream_try json_loads decode x r0 = (r0, Raise e).
Proof.
  intros Hr Hs Hrun. unfold stream_try, bind, lift.
  rewrite Hr, Hs. cbn [Z.eqb Pos.eqb]. rewrite Hrun. reflexivity.
Qed.

(** A read that completes is classified by the number of fragments and the
    mean gap. *)
Lemma stream_completed model m x (t : tester F) resp st :
  choose_model (results t) model = Ok m →
  reply x = Ok resp →
  status_code resp = 200 →
  run_lines json_loads decode x resp = (st, Ok tt) →
  ∃ r : dict,
    (test_stream_mode json_loads decode model x t).2 = Ok (VDict r) ∧
    r !! "success" = Some (VBool (0 <? chunk_count st)%nat) ∧
    r !! "stream_quality" = Some (VStr (quality_of st)) ∧
    r !! "is_real_stream" = Some (VBool (2 <=? chunk_count st)%nat) ∧
    r !! "chunks_received" = Some (VInt (Z.of_nat (chunk_count st))) ∧
    (r !! "error" = Some VNone ↔ chunk_count st ≠ 0%nat).
Proof.
  intros Hm Hr Hs Hrun.
  pose proof (run_lines_ok _ _ _ _ Hrun) as [Hlen Hfull].
  pose proof (run_probe_result Stream model m x t Hm) as Hp.
  cbn [run_probe probe_try probe_result probe_key] in Hp. rewrite Hp.
  cbn [store snd]. eexists. split; [reflexivity |].
  unfold try_except. rewrite (stream_try_completed x _ resp st Hr Hs Hrun).
  unfold analyse, quality_of. rewrite Hlen.
  destruct (chunk_count st) as [| [| [| n]]] eqn:Hn.
  - rewrite Hfull by reflexivity.
    destruct (has_done st && (length (raw_lines st) <=? 2)%nat);
      (repeat split; try (vm_compute; congruence)).
    all: intros; congruence.
  - repeat split; try (vm_compute; congruence).
  - cbn [Nat.ltb Nat.leb]. rewrite andb_false_r.
    repeat split; try (vm_compute; congruence).
  - cbn [Nat.ltb Nat.leb]. rewrite andb_true_r.
    destruct (fgt (avg_interval (chunk_times st)) f_0_01);
      repeat split; try (vm_compute; congruence).
Qed.

(** Every other run of the streaming probe leaves the fields of the
    classifier as [result] was created with them. *)
Lemma stream_not_completed model m x (t : tester F) :
  choose_model (results t) model = Ok m →
  (∀ resp st, reply x = Ok resp → status_code resp = 200 →
     run_lines json_loads decode x resp ≠ (st, Ok tt)) →
  ∃ r : dict,
    (test_stream_mode json_loads decode model x t).2 = Ok (VDict r) ∧
    r !! "success" = Some (VBool false) ∧
    r !! "stream_quality" = Some (VStr "unknown") ∧
    r !! "is_real_stream" = Some (VBool false) ∧
    r !! "chunks_received" = Some (VInt 0) ∧
    ∃ msg, r !! "error" = Some (VStr msg).
Proof.
  intros Hm Hnot.
  pose proof (run_probe_result Stream model m x t Hm) as Hp.
  cbn [run_probe probe_try probe_result probe_key] in Hp. rewrite Hp.
  cbn [store snd]. eexists. split; [reflexivity |].
  destruct (reply x) as [resp | e] eqn:Hr.
  - destruct (decide (status_code resp = 200)) as [Hs | Hs].
    + destruct (run_lines json_loads decode x resp) as [st [[] | e]] eqn:Hrun.
      { exfalso. exact (Hnot resp st eq_refl Hs Hrun). }
      rewrite (try_except_raise Stream x _ _ e
                 (stream_try_failed x _ resp st e Hr Hs Hrun)).
      repeat split; try (vm_compute; congruence).
      eexists. apply lookup_insert_eq.
    + destruct (probe_try_status Stream x
                  (<["model_used" := m]> (stream_result model)) resp Hr Hs)
        as (r1 & Hrun & Hsucc).
      cbn [probe_try] in Hrun. unfold try_except. rewrite Hrun.
      unfold stream_try, bind, lift, set, modify in Hrun.
      rewrite Hr in Hrun. apply Z.eqb_neq in Hs. rewrite Hs in Hrun.
      injection Hrun as Hrun. rewrite <- Hrun.
      repeat split; try (vm_compute; congruence).
      eexists. apply lookup_insert_eq.
  - rewrite (try_except_raise Stream x _ _ e
               (probe_try_request_raises Stream x _ e Hr)).
    repeat split; try (vm_compute; congruence).
    eexists. apply lookup_insert_eq.
Qed.



(** ** The classifier *)






(** The streaming probe never reports a pass together with an error. *)
Lemma stream_pass_has_no_error model m x (t : tester F) :
  choose_model (results t) model = Ok m →
  ∃ r : dict,
    (test_stream_mode json_loads decode model x t).2 = Ok (VDict r) ∧
    (r !! "success" = Some (VBool true) → r !! "error" = Some VNone).
Proof.
  intros Hm.
  destruct (reply x) as [resp | e] eqn:Hr.
  - destruct (decide (status_code resp = 200)) as [Hs | Hs].
    + destruct (run_lines json_loads decode x resp) as [st [[] | e]] eqn:Hrun.
      * destruct (stream_completed model m x t resp st Hm Hr Hs Hrun)
          as (r & Hres & Hsucc & _ & _ & _ & Herr).
        exists r. split; [exact Hres |]. rewrite Hsucc. intros [= Hpos].
        apply Herr. apply Nat.ltb_lt in Hpos. lia.
      * destruct (stream_not_completed model m x t Hm) as (r & Hres & Hsucc & _).
        { intros resp' st' Hr' _. rewrite Hr in Hr'. injection Hr' as <-. congruence. }
        exists r. split; [exact Hres |]. rewrite Hsucc. discriminate.
    + destruct (stream_not_completed model m x t Hm) as (r & Hres & Hsucc & _).
      { intros resp' st' Hr' Hs'. rewrite Hr in Hr'. injection Hr' as <-. contradiction. }
      exists r. split; [exact Hres |]. rewrite Hsucc. discriminate.
  - destruct (stream_not_completed model m x t Hm) as (r & Hres & Hsucc & _).
    { intros resp' st'. congruence. }
    exists r. split; [exact Hres |]. rewrite Hsucc. discriminate.
Qed.

(** ** The chat probe *)




(** ** The tool-calling probe *)


(** ** Failures, for the five probes *)



(** ** The result store *)

(** A probe writes its own key of the store and no other. *)
Lemma run_probe_frame p model x (t : tester F) k :
  k ≠ probe_key p →
  results (run_probe json_loads decode p model x t).1 !! k = results t !! k.
Proof.
  intros Hk.
  destruct p; cbn [run_probe probe_key] in *;
    unfold test_models_list, test_chat_completion, test_stream_mode,
      test_function_calling, test_embeddings, bind, store;
    try destruct (choose_model (results t) model);
    try destruct (choose_embedding_model (results t) model);
    cbn [fst results]; rewrite ?lookup_insert_ne by done; reflexivity.
Qed.

(** The keys a pass writes after it has replaced the store. *)
Lemma pass_frame model xc xs xt (t : tester F) k :
  k ≠ "chat_completion" → k ≠ "stream_mode" → k ≠ "function_calling" →
  results (test_single_model json_loads decode model xc xs xt t).1 !! k
  = results (reset_results model t).1 !! k.
Proof.
  intros Hc Hs Hf. unfold test_single_model.
  unfold bind at 1. unfold reset_results at 1, modify at 1.
  set (t1 := Tester _ _).
  change (reset_results model t).1 with t1.
  pose proof (run_probe_frame Chat model xc t1 k Hc) as H1.
  cbn [run_probe] in H1. unfold bind at 1.
  destruct (test_chat_completion json_loads model xc t1) as [t2 [v2 | e2]];
    cbn [fst] in H1; [| exact H1].
  pose proof (run_probe_frame Stream model xs t2 k Hs) as H2.
  cbn [run_probe] in H2. unfold bind at 1.
  destruct (test_stream_mode json_loads decode model xs t2) as [t3 [v3 | e3]];
    cbn [fst] in H2; [| cbn [fst]; congruence].
  pose proof (run_probe_frame Tools model xt t3 k Hf) as H3.
  cbn [run_probe] in H3. unfold bind at 1.
  destruct (test_function_calling json_loads model xt t3) as [t4 [v4 | e4]];
    cbn [fst] in H3; [| cbn [fst]; congruence].
  unfold bind, append_history, modify, gets, ret. cbn [fst results]. congruence.
Qed.

(** C9: at the start of a pass the store is replaced.  The new store holds
    the models-list entry as it was (an empty dictionary if there was none)
    and the name of the model under test, and no other key.  The probes of
    the pass add their three keys to it: when the pass ends, the models-list
    entry is still the one carried over, and whatever else an earlier pass
    had stored is gone. *)
Theorem results_overwritten model xc xs xt (t : tester F) :
  let t1 := (reset_results model t).1 in
  let t2 := (test_single_model json_loads decode model xc xs xt t).1 in
  (results t1 !! "models_list"
     = Some (default (VDict ∅) (results t !! "models_list")) ∧
   (∀ v, results t !! "models_list" = Some v →
         results t1 !! "models_list" = Some v) ∧
   results t1 !! "tested_model" = Some model ∧
   (∀ k, k ≠ "models_list" → k ≠ "tested_model" → results t1 !! k = None)) ∧
  (results t2 !! "models_list"
     = Some (default (VDict ∅) (results t !! "models_list")) ∧
   (∀ k, k ≠ "models_list" → k ≠ "tested_model" →
         k ≠ "chat_completion" → k ≠ "stream_mode" → k ≠ "function_calling" →
         results t2 !! k = None)).
Proof.
  intros t1 t2.
  assert (results t1 !! "models_list"
          = Some (default (VDict ∅) (results t !! "models_list"))) as Hml.
  { subst t1. unfold reset_results, modify. cbn [fst results].
    apply lookup_insert_eq. }
  assert (∀ k, k ≠ "models_list" → k ≠ "tested_model" → results t1 !! k = None)
    as Hother.
  { intros k Hk1 Hk2. subst t1. unfold reset_results, modify. cbn [fst results].
    rewrite lookup_insert_ne by done. apply lookup_singleton_ne. done. }
  split; [split; [| split; [| split]] | split].
  - exact Hml.
  - intros v Hv. rewrite Hml, Hv. reflexivity.
  - subst t1. unfold reset_results, modify. cbn [fst results].
    rewrite lookup_insert_ne by done. apply lookup_singleton_eq.
  - exact Hother.
  - subst t2. rewrite pass_frame by done. exact Hml.
  - intros k Hk1 Hk2 Hk3 Hk4 Hk5. subst t2. rewrite pass_frame by done.
    apply Hother; assumption.
Qed.

(** ** Remarks *)

(** A probe that is given a model runs with it. *)
Lemma given_model_is_selected p (rs : dict) (model : value) :
  truthy model = true → selected rs p model = Ok model.
Proof.
  intros Ht.
  destruct p; cbn [selected]; unfold choose_model, choose_embedding_model;
    rewrite ?Ht; reflexivity.
Qed.

(** A bare JSON line with a text under [choices[0].delta.content] is a
    fragment like any other: its arrival time is appended, its text
    accumulated, and it is counted. *)
Lemma bare_line_is_counted start line now (st : loop_state F) data delta s :
  line ≠ "" →
  startswith (decode line) "data: " = false →
  startswith (decode line) "{" = true →
  json_loads (decode line) = inr data →
  first_delta data = Ok delta →
  py_get delta "content" (VStr "") = Ok (VStr s) →
  s ≠ "" →
  on_line json_loads decode start line now st =
  (LoopState
     (match first_chunk_time st with
      | None => Some (fsub now start)
      | Some t => Some t
      end)
     (chunk_times st ++ [fsub now start])
     (full_content st ++ s)
     (S (chunk_count st))
     (raw_lines st ++ [decode line])
     (has_done st),
   Ok false).
Proof.
  intros Hline Hdata Hbare Hj Hd Hc Hs.
  unfold on_line.
  apply String.eqb_neq in Hline. rewrite Hline, Hdata, Hbare, Hj.
  assert (truthy (VStr s : value) = true) as Ht
    by (cbn; apply negb_true_iff, String.eqb_neq; exact Hs).
  unfold fragment, gets, bind, lift, ret, modify.
  rewrite Hd. cbn beta iota. rewrite Hc. cbn beta iota.
  rewrite !Ht. cbn. reflexivity.
Qed.

End Theory.

(** * The statements on concrete runs *)


(** Three fragments that arrive together: [good]. *)
Lemma three_at_once_is_good :
  Run.field (test_stream_mode Run.json_loads Run.decode Run.gpt4
               (Run.streamed Run.three_at_once)) "stream_quality"
  = Some (VStr "good").
Proof. vm_compute. reflexivity. Qed.


(** Three lines without content and no sentinel: [unknown], a failure. *)
Lemma no_content_is_unknown :
  Run.field (test_stream_mode Run.json_loads Run.decode Run.gpt4
               (Run.streamed Run.three_empty)) "stream_quality"
  = Some (VStr "unknown") ∧
  Run.field (test_stream_mode Run.json_loads Run.decode Run.gpt4
               (Run.streamed Run.three_empty)) "success"
  = Some (VBool false).
Proof. split; vm_compute; reflexivity. Qed.










(** C8: the models probe on a 200 response whose body is [{"data":null}].
    [success] is set before the identifiers are collected, the collection
    raises, and the handler adds the error: the result has both. *)
Theorem models_pass_with_error :
  Run.json_loads Run.null_data_text = inr Run.null_data_value ∧
  Run.field (test_models_list Run.json_loads (Run.plain 200 Run.null_data_text))
    "success" = Some (VBool true) ∧
  Run.field (test_models_list Run.json_loads (Run.plain 200 Run.null_data_text))
    "error" = Some (VStr "'NoneType' object is not iterable") ∧
  Run.field (test_models_list Run.json_loads (Run.plain 200 Run.null_data_text))
    "models" = Some (VList []).
Proof. repeat split; vm_compute; reflexivity. Qed.

(** A store left by an earlier pass, with an embeddings entry: the pass on
    another model keeps the models list and drops the rest. *)
Lemma earlier_entries_are_dropped :
  let models : value Q := VDict {[ "success" := VBool true;
                                   "models" := VList [VStr "gpt-4"] ]} in
  let old : tester Q :=
    Tester {[ "models_list" := models;
              "tested_model" := VStr "gpt-3.5-turbo";
              "embeddings" := VDict {[ "success" := VBool true ]} ]} [] in
  let new := (test_single_model Run.json_loads Run.decode Run.gpt4
                (Run.plain 200 Run.hello_text) (Run.streamed Run.one_fragment)
                (Run.plain 200 Run.weather_text) old).1 in
  results new !! "models_list" = Some models ∧
  results new !! "embeddings" = None.
Proof.
  intros models old new.
  destruct (results_overwritten Run.json_loads Run.decode Run.gpt4
              (Run.plain 200 Run.hello_text) (Run.streamed Run.one_fragment)
              (Run.plain 200 Run.weather_text) old)
    as (_ & Hlist & Hother).
  split.
  - exact Hlist.
  - apply Hother; discriminate.
Defined.

(** Called without a model, a probe chooses one before it enters its [try]:
    when the stored list holds an identifier that is not a string, the
    exception of [m.lower()] leaves the probe. *)
Lemma selection_can_raise :
  let listed : tester Q :=
    Tester {[ "models_list" :=
                VDict {[ "success" := VBool true; "models" := VList [VInt 5] ]} ]} [] in
  (test_chat_completion Run.json_loads VNone (Run.plain 200 Run.hello_text) listed).2
  = Raise (Exn AttributeError "'int' object has no attribute 'lower'").
Proof. vm_compute. reflexivity. Qed.

(** * Further properties *)

(** ** Strings *)

Lemma list_ascii_of_string_app (s t : string) :
  list_ascii_of_string (s ++ t) = (list_ascii_of_string s ++ list_ascii_of_string t)%list.
Proof.
  induction s as [| c s IH]; [reflexivity |].
  change (c :: list_ascii_of_string (s ++ t)
          = c :: (list_ascii_of_string s ++ list_ascii_of_string t)%list).
  f_equal. exact IH.
Qed.

Lemma lstrip_slash_head (l : list ascii) :
  head (lstrip_slash l) ≠ Some "/"%char.
Proof.
  induction l as [| c l IH]; cbn; [discriminate |].
  destruct (is_slash c) eqn:Hc; [exact IH |].
  cbn. intros [= ->]. discriminate.
Qed.

Lemma lstrip_slash_suffix (l : list ascii) :
  ∃ n, l = (replicate n "/"%char ++ lstrip_slash l)%list.
Proof.
  induction l as [| c l [n IH]]; cbn.
  - exists 0%nat. reflexivity.
  - destruct (is_slash c) eqn:Hc.
    + apply Ascii.eqb_eq in Hc as ->. exists (S n). cbn. rewrite <- IH. reflexivity.
    + exists 0%nat. reflexivity.
Qed.

Lemma last_rev {A} (l : list A) : last (rev l) = head l.
Proof.
  destruct l as [| a l]; [reflexivity |]. cbn. apply last_snoc.
Qed.

(** X1: the base address the client keeps never ends in a slash; it is the
    address given, less the slashes at its end; one more slash at the end
    of the address changes nothing, so that every request goes to the same
    place. *)
Theorem trailing_slashes_are_dropped {F : Type} (url key : string)
    (send : http_call F → res (response F))
    (method endpoint : string) (data : value F) (stream : bool) (timeout : Z) :
  last (list_ascii_of_string (base_url (new_client url key))) ≠ Some "/"%char ∧
  (∃ n, list_ascii_of_string url =
        (list_ascii_of_string (base_url (new_client url key))
         ++ replicate n "/"%char)%list) ∧
  _make_request send (new_client (url ++ "/") key) method endpoint data stream timeout
  = _make_request send (new_client url key) method endpoint data stream timeout.
Proof.
  split; [| split].
  - cbn [new_client base_url]. unfold rstrip_slash.
    rewrite list_ascii_of_string_of_list_ascii, last_rev.
    apply lstrip_slash_head.
  - cbn [new_client base_url]. unfold rstrip_slash.
    rewrite list_ascii_of_string_of_list_ascii.
    destruct (lstrip_slash_suffix (rev (list_ascii_of_string url))) as [n Hn].
    exists n.
    rewrite <- (rev_involutive (list_ascii_of_string url)), Hn at 1.
    rewrite rev_app_distr. f_equal.
    clear. induction n as [| n IH]; [reflexivity |].
    cbn. rewrite IH. clear. induction n as [| n IH]; [reflexivity |].
    cbn. rewrite <- IH. reflexivity.
  - assert (new_client (url ++ "/") key = new_client url key) as ->; [| reflexivity].
    unfold new_client. f_equal. unfold rstrip_slash.
    rewrite list_ascii_of_string_app. cbn [list_ascii_of_string].
    rewrite rev_app_distr. reflexivity.
Qed.

Section MoreTheory.
Context {F : Type} `{PyFloat F}.
Variable json_loads : string → string + value F.
Variable decode : string → string.
Variable py_int : string → option Z.

Local Abbreviation value := (value F).
Local Abbreviation dict := (gmap string value).

(** ** select_model *)

Lemma classify_perm (ms c e o : list value) :
  classify ms = Ok (c, e, o) → c ++ e ++ o ≡ₚ ms.
Proof.
  revert c e o. induction ms as [| m ms IH]; intros c e o; cbn.
  - intros [= <- <- <-]. reflexivity.
  - destruct (py_lower m) as [s |]; [| discriminate]. cbn.
    destruct (classify ms) as [[[c' e'] o'] |]; [| discriminate]. cbn.
    specialize (IH _ _ _ eq_refl).
    repeat case_match; intros [= <- <- <-]; rewrite <- IH.
    + symmetry. apply Permutation_middle.
    + reflexivity.
    + rewrite !app_assoc. symmetry. apply Permutation_middle.
Qed.

Lemma classify_classes (ms c e o : list value) :
  classify ms = Ok (c, e, o) →
  Forall (λ m, ∃ s, m = VStr s ∧ contains "embed" (lower s) = true) e ∧
  Forall (λ m, ∃ s, m = VStr s ∧ contains "embed" (lower s) = false ∧
                    existsb (λ x, contains x (lower s)) chat_keywords = true) c ∧
  Forall (λ m, ∃ s, m = VStr s ∧ contains "embed" (lower s) = false ∧
                    existsb (λ x, contains x (lower s)) chat_keywords = false) o ∧
  sublist c ms ∧ sublist e ms ∧ sublist o ms.
Proof.
  revert c e o. induction ms as [| m ms IH]; intros c e o; cbn [classify].
  - intros [= <- <- <-]. repeat split; constructor.
  - destruct m; try discriminate. cbn [py_lower res_bind].
    destruct (classify ms) as [[[c' e'] o'] |]; [| discriminate]. cbn [res_bind].
    destruct (IH _ _ _ eq_refl) as (He & Hc & Ho & Sc & Se & So).
    repeat case_match; intros [= <- <- <-]; repeat split;
      try assumption; try (constructor; [eauto | assumption]);
      try (apply sublist_skip; assumption);
      try (apply sublist_cons; assumption).
Qed.

Lemma classify_raises (pre post : list value) m :
  Forall (λ v, ∃ s, v = VStr s) pre →
  (∀ s, m ≠ VStr s) →
  classify (pre ++ m :: post) = Raise (no_attribute m "lower").
Proof.
  intros Hpre Hm. induction Hpre as [| v pre [s ->] _ IH]; cbn.
  - destruct m; try reflexivity. exfalso. eapply Hm. reflexivity.
  - rewrite IH. reflexivity.
Qed.

(** X2: the three classes of [select_model] list every model once: the
    numbered list is a rearrangement of the models, each class in the order
    of the list.  A name with [embed] in it is an embedding model whatever
    else it contains; a chat model has one of the six keywords and no
    [embed]. *)
Theorem models_are_partitioned (ms c e o : list value) :
  classify ms = Ok (c, e, o) →
  c ++ e ++ o ≡ₚ ms ∧
  length (c ++ e ++ o) = length ms ∧
  sublist c ms ∧ sublist e ms ∧ sublist o ms ∧
  Forall (λ m, ∃ s, m = VStr s ∧ contains "embed" (lower s) = true) e ∧
  Forall (λ m, ∃ s, m = VStr s ∧ contains "embed" (lower s) = false ∧
                    existsb (λ x, contains x (lower s)) chat_keywords = true) c ∧
  Forall (λ m, ∃ s, m = VStr s ∧ contains "embed" (lower s) = false ∧
                    existsb (λ x, contains x (lower s)) chat_keywords = false) o.
Proof.
  intros Hc.
  pose proof (classify_perm _ _ _ _ Hc) as Hp.
  destruct (classify_classes _ _ _ _ Hc) as (He & Hch & Ho & Sc & Se & So).
  repeat split; try assumption. rewrite Hp. reflexivity.
Qed.

Lemma select_model_asks show inputs (rs : dict) ms c e o :
  lists rs ms → ms ≠ [] → classify ms = Ok (c, e, o) →
  select_model py_int show inputs rs
  = ask py_int show (VList ms) c (c ++ e ++ o)%list inputs.
Proof.
  intros (mr & Hrs & Hmr) Hne Hc. unfold select_model.
  rewrite Hrs. cbn [default from_option id py_get]. rewrite Hmr.
  cbn [default from_option id res_bind truthy py_iter].
  destruct ms; [contradiction |]. cbn [negb]. rewrite Hc. reflexivity.
Qed.

(** X3: a number between 1 and the number of models returns the model
    shown under that number, chat models first, then embedding models, then
    the others. *)
Theorem select_by_number show line rest (rs : dict) ms c e o i m :
  lists rs ms → classify ms = Ok (c, e, o) →
  strip line ≠ "" → py_int (strip line) = Some i →
  1 ≤ i → (c ++ e ++ o)%list !! Z.to_nat (i - 1) = Some m →
  select_model py_int show (line :: rest) rs = Ok (m, rest).
Proof.
  intros Hrs Hc Hline Hint Hi Hm.
  assert (ms ≠ []) as Hne.
  { intros ->. cbn in Hc. injection Hc as <- <- <-. discriminate. }
  rewrite (select_model_asks show _ rs ms c e o Hrs Hne Hc).
  cbn [ask]. unfold on_choice.
  apply String.eqb_neq in Hline. rewrite Hline, Hint.
  assert ((i =? 0) = false) as -> by lia. rewrite andb_false_r.
  pose proof (lookup_lt_Some _ _ _ Hm) as Hlt.
  assert ((0 <=? i - 1) && (i - 1 <? Z.of_nat (length (c ++ e ++ o)%list)) = true) as ->.
  { apply andb_true_iff. split; [apply Z.leb_le | apply Z.ltb_lt]; lia. }
  rewrite Hm. reflexivity.
Qed.

(** X4: a number that is no index is never taken for a name.  With the
    exit option 0 returns ["__EXIT__"]; any other number outside 1..n, and 0
    without the exit option, makes the prompt ask again, even where a model
    bears that number as its name. *)
Theorem number_out_of_range show line rest (rs : dict) ms c e o i :
  lists rs ms → classify ms = Ok (c, e, o) → ms ≠ [] →
  strip line ≠ "" → py_int (strip line) = Some i →
  i < 1 ∨ Z.of_nat (length ms) < i →
  select_model py_int show (line :: rest) rs =
  if show && (i =? 0) then Ok (VStr "__EXIT__", rest)
  else select_model py_int show rest rs.
Proof.
  intros Hrs Hc Hne Hline Hint Hi.
  rewrite !(select_model_asks show _ rs ms c e o Hrs Hne Hc).
  cbn [ask]. unfold on_choice.
  apply String.eqb_neq in Hline. rewrite Hline, Hint.
  destruct (show && (i =? 0)); [reflexivity |].
  pose proof (classify_perm _ _ _ _ Hc) as Hp.
  apply Permutation_length in Hp.
  assert ((0 <=? i - 1) && (i - 1 <? Z.of_nat (length (c ++ e ++ o)%list)) = false) as ->.
  { apply andb_false_iff. destruct Hi; [left; apply Z.leb_gt | right; apply Z.ltb_ge]; lia. }
  reflexivity.
Qed.





(** X6: an empty answer selects the first chat model, and the first model
    of the numbered list when there is no chat model; with a list that is
    not empty the answer is a listed model, never [None]. *)
Theorem empty_answer_selects_default show line rest (rs : dict) ms c e o :
  lists rs ms → classify ms = Ok (c, e, o) → ms ≠ [] →
  strip line = "" →
  ∃ m, select_model py_int show (line :: rest) rs = Ok (m, rest) ∧
       m ∈ ms ∧
       head (c ++ e ++ o)%list = Some m ∧
       (∀ s, m = VStr s →
          existsb (λ x, contains x (lower s)) chat_keywords = false ∨
          contains "embed" (lower s) = true →
          c = []).
Proof.
  intros Hrs Hc Hne Hline.
  rewrite (select_model_asks show _ rs ms c e o Hrs Hne Hc).
  cbn [ask]. unfold on_choice. rewrite Hline. cbn [String.eqb res_bind].
  pose proof (classify_perm _ _ _ _ Hc) as Hp.
  destruct (classify_classes _ _ _ _ Hc) as (_ & Hch & _).
  destruct c as [| m c].
  - cbn [app]. destruct (e ++ o)%list as [| m l] eqn:Heo.
    + cbn in Hp. rewrite ?Heo in Hp. apply Permutation_nil in Hp. contradiction.
    + exists m. split; [reflexivity |]. split; [| split; [reflexivity | auto]].
      rewrite <- Hp. cbn. rewrite ?Heo. left.
  - exists m. split; [reflexivity |]. split; [| split; [reflexivity |]].
    + rewrite <- Hp. left.
    + intros s -> Hs. exfalso.
      apply Forall_cons in Hch as [(s' & [= <-] & Hemb & Hkw) _].
      destruct Hs; congruence.
Qed.

Lemma matching_sub kw (ms l : list value) :
  matching kw ms = Ok l → ∀ m, m ∈ l → m ∈ ms.
Proof.
  revert l. induction ms as [| a ms IH]; intros l; cbn [matching].
  - intros [= <-] m Hm. exact Hm.
  - destruct (py_lower a) as [s |]; [| discriminate]. cbn [res_bind].
    destruct (matching kw ms) as [l' |]; [| discriminate]. cbn [res_bind].
    intros [= <-] m Hm. destruct (contains kw s).
    + apply elem_of_cons in Hm as [-> | Hm]; [left | right; eapply IH; eauto].
    + right. eapply IH; eauto.
Qed.

Lemma ask_returns show (ms c all : list value) inputs v rest :
  (∀ m, m ∈ c → m ∈ all) → (∀ m, m ∈ all → m ∈ ms) → all ≠ [] →
  ask py_int show (VList ms) c all inputs = Ok (v, rest) →
  (v ∈ ms ∨ (show = true ∧ v = VStr "__EXIT__")) ∧
  (length rest < length inputs)%nat ∧ suffix rest inputs.
Proof.
  intros Hc Hall Hne. induction inputs as [| line inputs IH]; cbn [ask].
  - discriminate.
  - destruct (on_choice py_int show (VList ms) c all (strip line)) as [[w |] |] eqn:Hturn;
      cbn [res_bind]; [| | discriminate].
    + intros [= <- <-]. split; [| split; [cbn; lia | apply suffix_cons_r; reflexivity]].
      unfold on_choice in Hturn.
      destruct (String.eqb (strip line) "").
      * destruct c as [| m c'].
        -- destruct all as [| m all']; [contradiction |].
           injection Hturn as <-. left. apply Hall. left.
        -- injection Hturn as <-. left. apply Hall, Hc. left.
      * destruct (py_int (strip line)) as [i |].
        -- destruct (show && (i =? 0)) eqn:Hexit.
           ++ injection Hturn as <-. right. apply andb_true_iff in Hexit as [-> _]. auto.
           ++ destruct ((0 <=? i - 1) && (i - 1 <? Z.of_nat (length all))); [| discriminate].
              destruct (all !! Z.to_nat (i - 1)) as [m |] eqn:Hm; [| discriminate].
              injection Hturn as <-. left. apply Hall.
              eapply list_elem_of_lookup_2. exact Hm.
        -- cbn [py_in res_bind py_iter] in Hturn.
           destruct (existsb (is_str (strip line)) ms) eqn:Hin.
           ++ injection Hturn as <-. left.
              apply existsb_exists in Hin as (m & Hm & Hs).
              destruct m; try discriminate. cbn in Hs.
              apply String.eqb_eq in Hs as ->. apply list_elem_of_In. exact Hm.
           ++ destruct (matching (lower (strip line)) ms) as [l |] eqn:Hl;
                [| discriminate]. cbn [res_bind] in Hturn.
              destruct l as [| m [| m' l]]; try discriminate.
              injection Hturn as <-. left.
              eapply matching_sub; [exact Hl | left].
    + intros Hrest. destruct (IH Hrest) as (Hv & Hlen & Hsuf).
      split; [exact Hv |]. split; [cbn; lia | apply suffix_cons_r; exact Hsuf].
Qed.

(** X7: what [select_model] returns.  With no model listed it returns
    [None] and reads nothing.  Otherwise it returns a model of the list, or
    ["__EXIT__"] when the exit option is on, and it has read at least one
    line; the lines left are the end of those given. *)
Theorem select_model_returns_listed show inputs (rs : dict) ms v rest :
  lists rs ms →
  select_model py_int show inputs rs = Ok (v, rest) →
  (ms = [] ∧ v = VNone ∧ rest = inputs) ∨
  (ms ≠ [] ∧ (v ∈ ms ∨ (show = true ∧ v = VStr "__EXIT__")) ∧
   (length rest < length inputs)%nat ∧ suffix rest inputs).
Proof.
  intros Hrs Hsel. destruct ms as [| m0 ms].
  - left. destruct Hrs as (mr & Hrs & Hmr). unfold select_model in Hsel.
    rewrite Hrs in Hsel. cbn [default from_option id py_get] in Hsel.
    rewrite Hmr in Hsel. cbn in Hsel. injection Hsel as <- <-. auto.
  - right. split; [discriminate |].
    destruct (classify (m0 :: ms)) as [[[c e] o] | err] eqn:Hc.
    + rewrite (select_model_asks show _ rs _ c e o Hrs ltac:(discriminate) Hc) in Hsel.
      pose proof (classify_perm _ _ _ _ Hc) as Hp.
      eapply ask_returns; [| | | exact Hsel].
      * intros m Hm. apply elem_of_app. left. exact Hm.
      * intros m Hm. rewrite <- Hp. exact Hm.
      * intros Hnil. rewrite Hnil in Hp. apply Permutation_nil in Hp. discriminate.
    + exfalso. destruct Hrs as (mr & Hrs & Hmr). unfold select_model in Hsel.
      rewrite Hrs in Hsel. cbn [default from_option id py_get] in Hsel.
      rewrite Hmr in Hsel. cbn [default from_option id res_bind truthy negb py_iter] in Hsel.
      rewrite Hc in Hsel. discriminate.
Qed.

(** X8: an identifier that is not a string stops [select_model] before it
    asks anything: the exception of [m.lower()] on the first such model
    leaves the function, whatever the lines waiting. *)
Theorem select_model_raises_on_non_string show inputs (rs : dict) pre m post :
  lists rs (pre ++ m :: post) →
  Forall (λ v, ∃ s, v = VStr s) pre →
  (∀ s, m ≠ VStr s) →
  select_model py_int show inputs rs = Raise (no_attribute m "lower").
Proof.
  intros (mr & Hrs & Hmr) Hpre Hm. unfold select_model.
  rewrite Hrs. cbn [default from_option id py_get]. rewrite Hmr.
  cbn [default from_option id res_bind py_iter].
  assert (truthy (VList (pre ++ m :: post) : value) = true) as ->
    by (destruct pre; reflexivity).
  cbn [negb]. rewrite (classify_raises pre post m Hpre Hm). reflexivity.
Qed.

(** ** select_embedding_model *)


(** ** The probes and the pass *)

Lemma probe_returns p model x (t : tester F) :
  truthy model = true →
  run_probe json_loads decode p model x t =
  (Tester (<[probe_key p := VDict (outcome json_loads decode p model x)]> (results t))
     (all_test_history t),
   Ok (VDict (outcome json_loads decode p model x))).
Proof.
  intros Hm.
  rewrite (run_probe_result json_loads decode p model model x t
             (given_model_is_selected p (results t) model Hm)).
  reflexivity.
Qed.

Lemma models_probe_returns x (t : tester F) :
  test_models_list json_loads x t =
  (Tester (<["models_list" := VDict (outcome json_loads decode Models VNone x)]> (results t))
     (all_test_history t),
   Ok (VDict (outcome json_loads decode Models VNone x))).
Proof. reflexivity. Qed.

(** What a pass on a given model leaves and returns. *)
Lemma pass_effect model xc xs xt (t : tester F) :
  truthy model = true →
  let rc := outcome json_loads decode Chat model xc in
  let rs := outcome json_loads decode Stream model xs in
  let rt := outcome json_loads decode Tools model xt in
  let store :=
    <["function_calling" := VDict rt]>
      (<["stream_mode" := VDict rs]>
         (<["chat_completion" := VDict rc]>
            ({[ "models_list" := default (VDict ∅) (results t !! "models_list");
                "tested_model" := model ]} : dict))) in
  test_single_model json_loads decode model xc xs xt t =
  (Tester store
     (all_test_history t ++
      [VDict {[ "model" := model; "chat" := VDict rc; "stream" := VDict rs;
                "tools" := VDict rt; "embeddings" := VDict ∅ ]}]),
   Ok (VDict store)).
Proof.
  intros Hm rc rs rt store. unfold test_single_model.
  unfold bind at 1. unfold reset_results at 1, modify at 1.
  unfold bind at 1.
  change (test_chat_completion json_loads model xc)
    with (run_probe json_loads decode Chat model xc).
  rewrite (probe_returns Chat model xc _ Hm). cbn [results all_test_history probe_key].
  unfold bind at 1.
  change (test_stream_mode json_loads decode model xs)
    with (run_probe json_loads decode Stream model xs).
  rewrite (probe_returns Stream model xs _ Hm). cbn [results all_test_history probe_key].
  unfold bind at 1.
  change (test_function_calling json_loads model xt)
    with (run_probe json_loads decode Tools model xt).
  rewrite (probe_returns Tools model xt _ Hm). cbn [results all_test_history probe_key].
  unfold bind, append_history, modify, gets, ret. cbn [results all_test_history].
  fold rc rs rt. fold store.
  assert (store !! "chat_completion" = Some (VDict rc)) as ->
    by (subst store; rewrite !lookup_insert_ne by done; apply lookup_insert_eq).
  assert (store !! "stream_mode" = Some (VDict rs)) as ->
    by (subst store; rewrite lookup_insert_ne by done; apply lookup_insert_eq).
  assert (store !! "function_calling" = Some (VDict rt)) as ->
    by (subst store; apply lookup_insert_eq).
  assert (store !! "embeddings" = None) as ->.
  { subst store. rewrite !lookup_insert_ne by done. apply lookup_singleton_ne. done. }
  reflexivity.
Qed.


(** X11: the totals [_print_summary] prints after a pass.  The total is
    always 4: the models list counts as a test, the name of the model does
    not.  The number passed is the number of these four whose [success] is
    set. *)
Theorem summary_counts_four_tests (s : string) xc xs xt (t : tester F) :
  s ≠ "" →
  (∀ v, results t !! "models_list" = Some v → is_dict v = true) →
  summary_totals
    (results (test_single_model json_loads decode (VStr s) xc xs xt t).1)
  = (Nat.b2n (succeeded (default (VDict ∅) (results t !! "models_list")))
     + Nat.b2n (succeeded (VDict (outcome json_loads decode Chat (VStr s) xc)))
     + Nat.b2n (succeeded (VDict (outcome json_loads decode Stream (VStr s) xs)))
     + Nat.b2n (succeeded (VDict (outcome json_loads decode Tools (VStr s) xt))),
     4)%nat.
Proof.
  intros Hs Hml.
  assert (truthy (VStr s : value) = true) as Ht
    by (cbn; apply negb_true_iff, String.eqb_neq; exact Hs).
  rewrite (pass_effect (VStr s) xc xs xt t Ht). cbn [fst results].
  set (ml := default (VDict ∅) (results t !! "models_list")).
  assert (is_dict ml = true) as Hd.
  { subst ml. destruct (results t !! "models_list") eqn:E; [apply Hml; reflexivity | reflexivity]. }
  destruct ml as [| | | | | | mld]; try discriminate.
  unfold summary_totals.
  assert ((map_to_list
             (<["function_calling" := VDict (outcome json_loads decode Tools (VStr s) xt)]>
                (<["stream_mode" := VDict (outcome json_loads decode Stream (VStr s) xs)]>
                   (<["chat_completion" := VDict (outcome json_loads decode Chat (VStr s) xc)]>
                      ({[ "models_list" := VDict mld; "tested_model" := VStr s ]} : dict))))).*2
          ≡ₚ [VDict (outcome json_loads decode Tools (VStr s) xt);
              VDict (outcome json_loads decode Stream (VStr s) xs);
              VDict (outcome json_loads decode Chat (VStr s) xc);
              VDict mld; VStr s]) as ->.
  { rewrite map_to_list_insert
      by (rewrite !lookup_insert_ne by done; apply lookup_singleton_ne; done).
    rewrite map_to_list_insert
      by (rewrite !lookup_insert_ne by done; apply lookup_singleton_ne; done).
    rewrite map_to_list_insert
      by (rewrite !lookup_insert_ne by done; apply lookup_singleton_ne; done).
    rewrite map_to_list_insert by (apply lookup_singleton_ne; done).
    rewrite map_to_list_singleton. reflexivity. }
  rewrite !filter_cons. cbn [is_dict]. rewrite filter_nil.
  repeat (rewrite decide_True by reflexivity).
  rewrite decide_False by discriminate.
  f_equal. rewrite !filter_cons, filter_nil. cbn [succeeded].
  repeat match goal with
    | |- context [decide (truthy ?v = true)] =>
        destruct (truthy v); [rewrite decide_True by reflexivity
                             | rewrite decide_False by discriminate]
    end; cbn; lia.
Qed.

(** ** The session *)




Lemma test_loop_history rounds inputs (t t' : tester F) s :
  test_loop json_loads decode py_int rounds inputs t = (t', Ok s) →
  match s with
  | Ended _ rounds' =>
      (length (all_test_history t') + length rounds'
       = length (all_test_history t) + length rounds)%nat ∧
      suffix rounds' rounds
  | Running _ =>
      (length (all_test_history t')
       = length (all_test_history t) + length rounds)%nat
  end.
Proof.
  revert inputs t. induction rounds as [| [[xc xs] xt] rounds IH]; intros inputs t;
    cbn [test_loop];
    (destruct (select_model py_int true inputs (results t)) as [[sel inputs'] | e];
     [| discriminate]);
    (destruct (is_str "__EXIT__" sel);
     [intros [= <- <-]; split; [lia | reflexivity] |]).
  - intros [= <- <-]. cbn. lia.
  - set (model := if truthy sel then sel else VStr "gpt-3.5-turbo").
    assert (truthy model = true) as Hm
      by (subst model; destruct (truthy sel) eqn:E; [exact E | reflexivity]).
    unfold bind at 1. rewrite (pass_effect model xc xs xt t Hm).
    intros Hrest. apply IH in Hrest. cbn [all_test_history] in Hrest.
    rewrite length_app in Hrest. cbn [length] in *.
    destruct s as [rest rounds' | rest].
    + destruct Hrest as [Hlen Hsuf]. split; [lia | apply suffix_cons_r; exact Hsuf].
    + lia.
Qed.

(** X12: every round of [run_loop_mode] adds one entry to the history and
    nothing else does: when the session has ended, and when it asks for a
    round it was not given, the history has grown by the number of rounds
    run. *)
Theorem session_history_counts_rounds xm rounds inputs (t t' : tester F) s :
  run_loop_mode json_loads decode py_int xm rounds inputs t = (t', Ok s) →
  match s with
  | Ended _ rounds' =>
      (length (all_test_history t') + length rounds'
       = length (all_test_history t) + length rounds)%nat ∧
      suffix rounds' rounds
  | Running _ =>
      (length (all_test_history t')
       = length (all_test_history t) + length rounds)%nat
  end.
Proof.
  unfold run_loop_mode. unfold bind at 1.
  rewrite models_probe_returns. unfold bind at 1, gets at 1. unfold bind at 1, lift at 1.
  cbn [results].
  destruct (py_get _ "success" VNone) as [success | e]; [| discriminate].
  destruct (truthy success); cbn [negb].
  - intros Hloop. apply test_loop_history in Hloop. exact Hloop.
  - unfold ret. intros [= <- <-]. cbn. split; [lia | reflexivity].
Qed.




(** A computation on [result] that leaves the key [k] alone. *)
Lemma keeps_ret {A} k (a : A) (r r' : dict) o :
  ret a r = (r', o) → r' !! k = r !! k.
Proof. intros [= <- _]. reflexivity. Qed.

Lemma keeps_lift {A} k (c : res A) (r r' : dict) o :
  lift c r = (r', o) → r' !! k = r !! k.
Proof. intros [= <- _]. reflexivity. Qed.

Lemma keeps_set k k' (v : value) :
  k' ≠ k → ∀ (r r' : dict) o, set k' v r = (r', o) → r' !! k = r !! k.
Proof. intros Hk r r' o [= <- _]. apply lookup_insert_ne. exact Hk. Qed.

Lemma keeps_bind {A B} k (c : M dict A) (f : A → M dict B) :
  (∀ r r' o, c r = (r', o) → r' !! k = r !! k) →
  (∀ a r r' o, f a r = (r', o) → r' !! k = r !! k) →
  ∀ r r' o, bind c f r = (r', o) → r' !! k = r !! k.
Proof.
  intros Hc Hf r r' o. unfold bind.
  destruct (c r) as [r1 [a | e]] eqn:Hrun.
  - intros Hrest. rewrite (Hf _ _ _ _ Hrest). eapply Hc. exact Hrun.
  - intros [= <- _]. eapply Hc. exact Hrun.
Qed.

Ltac keeps :=
  repeat first
    [ apply keeps_bind; [| intro; cbv beta]
    | apply keeps_ret
    | apply keeps_lift
    | apply keeps_set; discriminate
    | match goal with
      | |- ∀ r r' o, (if ?b then _ else _) r = _ → _ => destruct b
      | |- ∀ r r' o, (match ?x with _ => _ end) r = _ → _ => destruct x
      end ].

Lemma probe_try_keeps_model p x (r r' : dict) o :
  probe_try json_loads decode p x r = (r', o) →
  r' !! "model_used" = r !! "model_used".
Proof.
  revert r r' o.
  destruct p; cbn [probe_try];
    unfold models_try, chat_try, stream_try, tools_try, embeddings_try, analyse;
    keeps.
Qed.

Lemma try_except_keeps_model p x (r0 : dict) :
  try_except (probe_try json_loads decode p x)
    (match p with Models => handle_models | _ => handle end) r0 !! "model_used"
  = r0 !! "model_used".
Proof.
  destruct (probe_try json_loads decode p x r0) as [r1 [u | e]] eqn:Hrun.
  - rewrite (try_except_ok json_loads decode p x r0 r1 u Hrun).
    eapply probe_try_keeps_model. exact Hrun.
  - rewrite (try_except_raise json_loads decode p x r0 r1 e Hrun).
    rewrite lookup_insert_ne by done.
    eapply probe_try_keeps_model. exact Hrun.
Qed.

(** X16: the result of the chat, streaming, tool-calling and embeddings
    probes names the model the probe ran with: the one it was given, or the
    one it chose.  Nothing that happens to the request changes
    [model_used]. *)
Theorem result_names_its_model p model m x (t : tester F) :
  p ≠ Models →
  selected (results t) p model = Ok m →
  ∃ r : dict,
    (run_probe json_loads decode p model x t).2 = Ok (VDict r) ∧
    r !! "model_used" = Some m.
Proof.
  intros Hp Hm. rewrite (run_probe_result json_loads decode p model m x t Hm).
  cbn [store snd]. eexists. split; [reflexivity |].
  rewrite try_except_keeps_model.
  destruct p; [contradiction | ..]; apply lookup_insert_eq.
Qed.


(** ** More on the probes *)



(** X18: on a 200 response the embeddings probe reports the length of
    [data[0].embedding] as [dimensions], with [success] set and no error.
    A body without [data], and a first element without [embedding], count
    as an empty vector: the probe passes with dimension 0. *)
Theorem embeddings_dimension model m x (t : tester F) resp (d : dict) :
  choose_embedding_model (results t) model = Ok m →
  reply x = Ok resp → status_code resp = 200 →
  json_loads (text resp) = inr (VDict d) →
  ∃ r : dict,
    (test_embeddings json_loads model x t).2 = Ok (VDict r) ∧
    (∀ (item : dict) rest (vec : list value),
       d !! "data" = Some (VList (VDict item :: rest)) →
       item !! "embedding" = Some (VList vec) →
       r !! "success" = Some (VBool true) ∧ r !! "error" = Some VNone ∧
       r !! "dimensions" = Some (VInt (Z.of_nat (length vec)))) ∧
    (d !! "data" = None ∨
     (∃ (item : dict) rest, d !! "data" = Some (VList (VDict item :: rest)) ∧
                            item !! "embedding" = None) →
     r !! "success" = Some (VBool true) ∧ r !! "error" = Some VNone ∧
     r !! "dimensions" = Some (VInt 0)).
Proof.
  intros Hm Hr Hs Hj.
  pose proof (run_probe_result json_loads decode Embeddings model m x t Hm) as Hp.
  cbn [run_probe probe_try probe_result probe_key] in Hp. rewrite Hp.
  cbn [store snd]. eexists. split; [reflexivity |].
  unfold try_except, embeddings_try, bind, lift, set, modify, response_json.
  rewrite Hr, Hs, Hj. cbn [Z.eqb Pos.eqb py_get res_bind].
  split.
  - intros item rest vec Hd Hitem. rewrite Hd.
    cbn [default from_option id py_item0 res_bind py_get]. rewrite Hitem.
    cbn [default from_option id py_len].
    repeat split; vm_compute; reflexivity.
  - intros [Hd | (item & rest & Hd & Hitem)]; rewrite Hd;
      cbn [default from_option id py_item0 res_bind py_get];
      rewrite ?Hitem, ?lookup_empty; cbn [default from_option id py_len];
      repeat split; vm_compute; reflexivity.
Qed.

Lemma first_match_names kw (l : list string) :
  first_match kw (VStr <$> l : list value)
  = Ok (VStr <$> find (λ n, contains kw (lower n)) l).
Proof.
  induction l as [| n l IH]; [reflexivity |].
  cbn [fmap list_fmap first_match py_lower res_bind find].
  change (list_fmap string value VStr l) with (VStr <$> l : list value).
  destruct (contains kw (lower n)); [reflexivity | exact IH].
Qed.

(** X19: the model a probe runs with when it is given none.  The chat,
    streaming and tool-calling probes take the first listed model with
    [gpt] in its name, letter case aside, else the first listed model, else
    [gpt-3.5-turbo].  The embeddings probe takes the first listed model with
    [embed] in its name and otherwise [text-embedding-ada-002]: it never
    falls back on the list. *)
Theorem model_chosen_when_none_given (rs : dict) (model : value) (names : list string) :
  truthy model = false →
  lists rs (VStr <$> names : list value) ∨ (rs !! "models_list" = None ∧ names = []) →
  choose_model rs model
  = Ok (VStr match find (λ n, contains "gpt" (lower n)) names with
             | Some n => n
             | None => match names with
                       | n :: _ => n
                       | [] => "gpt-3.5-turbo"
                       end
             end) ∧
  choose_embedding_model rs model
  = Ok (VStr match find (λ n, contains "embed" (lower n)) names with
             | Some n => n
             | None => "text-embedding-ada-002"
             end).
Proof.
  intros Hmodel Hrs. unfold choose_model, choose_embedding_model. rewrite Hmodel.
  destruct Hrs as [(mr & Hrs & Hmr) | [Hrs ->]]; rewrite Hrs;
    cbn [default from_option id py_get py_item res_bind];
    rewrite ?Hmr, ?lookup_empty; cbn [default from_option id truthy res_bind];
    [| split; reflexivity].
  destruct names as [| n0 names]; [split; reflexivity |].
  cbn [fmap list_fmap]. change (list_fmap string value VStr names)
    with (VStr <$> names : list value).
  cbn [py_iter res_bind].
  change (VStr n0 :: (VStr <$> names : list value))
    with (VStr <$> n0 :: names : list value).
  rewrite !first_match_names. cbn [res_bind].
  split.
  - destruct (find (λ n, contains "gpt" (lower n)) (n0 :: names)) as [n |] eqn:Hfind.
    + cbn [fmap option_fmap option_map default from_option id].
      apply find_some in Hfind as [_ Hn].
      assert (truthy (VStr n : value) = true) as ->; [| reflexivity].
      cbn. destruct n; [discriminate Hn | reflexivity].
    + cbn [fmap option_fmap option_map default from_option id]. rewrite Hmodel.
      reflexivity.
  - destruct (find (λ n, contains "embed" (lower n)) (n0 :: names)) as [n |] eqn:Hfind.
    + cbn [fmap option_fmap option_map default from_option id].
      apply find_some in Hfind as [_ Hn].
      assert (truthy (VStr n : value) = true) as ->; [| reflexivity].
      cbn. destruct n; [discriminate Hn | reflexivity].
    + cbn [fmap option_fmap option_map default from_option id]. rewrite Hmodel.
      reflexivity.
Qed.

(** X20: in every result of the tool-calling probe, [tool_called] set
    means [success] set: the count of tool calls in the final report never
    includes a failed probe. *)
Theorem tool_called_means_success model m x (t : tester F) :
  choose_model (results t) model = Ok m →
  ∃ r : dict,
    (test_function_calling json_loads model x t).2 = Ok (VDict r) ∧
    (r !! "tool_called" = Some (VBool true) → r !! "success" = Some (VBool true)).
Proof.
  intros Hm.
  pose proof (run_probe_result json_loads decode Tools model m x t Hm) as Hp.
  cbn [run_probe probe_try probe_result probe_key] in Hp. rewrite Hp.
  cbn [store snd]. eexists. split; [reflexivity |].
  unfold try_except, tools_try, bind, lift, set, modify, response_json, handle, ret.
  repeat case_match; simplify_eq; vm_compute; congruence.
Qed.

(** ** The lines of a stream *)

Lemma read_lines_until_done start line now (st : loop_state F) ls1 ls2 err :
  line ≠ "" →
  startswith (decode line) "data: " = true →
  strip (str_drop 6 (decode line)) = "[DONE]" →
  read_lines json_loads decode start (ls1 ++ (line, now) :: ls2) err st
  = read_lines json_loads decode start (ls1 ++ [(line, now)]) None st.
Proof.
  intros Hline Hdata Hdone. revert st.
  induction ls1 as [| [l n] ls1 IH]; intros st; cbn [app read_lines].
  - unfold bind, on_line. apply String.eqb_neq in Hline.
    rewrite Hline, Hdata, Hdone. reflexivity.
  - unfold bind. destruct (on_line json_loads decode start l n st) as [st1 [[] | e]];
      [reflexivity | apply IH | reflexivity].
Qed.

Lemma read_lines_skips_empty start (st : loop_state F) ls err :
  read_lines json_loads decode start (filter (λ l, l.1 ≠ "") ls) err st
  = read_lines json_loads decode start ls err st.
Proof.
  revert st. induction ls as [| [l n] ls IH]; intros st; [reflexivity |].
  rewrite filter_cons. cbn [fst].
  destruct (decide (l ≠ "")) as [Hl | Hl].
  - cbn [read_lines]. unfold bind.
    destruct (on_line json_loads decode start l n st) as [st1 [[] | e]];
      [reflexivity | apply IH | reflexivity].
  - assert (l = "") as -> by (destruct (decide (l = "")); [assumption | contradiction]).
    cbn [read_lines]. unfold bind, on_line. cbn. apply IH.
Qed.

Lemma stream_mode_same_lines model ts te code body ls err ls' err' (t : tester F) :
  (∀ st, read_lines json_loads decode ts ls err st
         = read_lines json_loads decode ts ls' err' st) →
  test_stream_mode json_loads decode model
    (Exchange ts (Ok (Response code body ls err)) te) t
  = test_stream_mode json_loads decode model
      (Exchange ts (Ok (Response code body ls' err')) te) t.
Proof.
  intros Hsame. unfold test_stream_mode, bind.
  destruct (choose_model (results t) model); [| reflexivity].
  unfold try_except, stream_try, bind, lift, run_lines.
  cbn [reply status_code iter_lines iter_error t_start t_end text http_error].
  rewrite Hsame. reflexivity.
Qed.

(** X21: nothing that follows the [data: [DONE]] line is read.  Whatever
    lines come after it, and whether or not the connection fails there, the
    streaming probe returns what it returns for the stream cut after that
    line. *)
Theorem nothing_is_read_after_done model ts te code body line now ls1 ls2 err
    (t : tester F) :
  line ≠ "" →
  startswith (decode line) "data: " = true →
  strip (str_drop 6 (decode line)) = "[DONE]" →
  test_stream_mode json_loads decode model
    (Exchange ts (Ok (Response code body (ls1 ++ (line, now) :: ls2) err)) te) t
  = test_stream_mode json_loads decode model
      (Exchange ts (Ok (Response code body (ls1 ++ [(line, now)]) None)) te) t.
Proof.
  intros Hline Hdata Hdone. apply stream_mode_same_lines. intros st.
  apply read_lines_until_done; assumption.
Qed.

(** X22: empty lines, the keep-alives between events, do not count: the
    streaming probe returns the same result with and without them, the
    number of raw lines included. *)
Theorem empty_lines_do_not_count model ts te code body ls err (t : tester F) :
  test_stream_mode json_loads decode model
    (Exchange ts (Ok (Response code body ls err)) te) t
  = test_stream_mode json_loads decode model
      (Exchange ts (Ok (Response code body (filter (λ l, l.1 ≠ "") ls) err)) te) t.
Proof.
  apply stream_mode_same_lines. intros st. symmetry. apply read_lines_skips_empty.
Qed.


(** X24: a probe writes the key of the store that is its own and no
    other, and leaves the history alone; what it returns is what it
    stored. *)
Theorem probe_writes_its_own_key p model x (t : tester F) :
  let t' := (run_probe json_loads decode p model x t).1 in
  all_test_history t' = all_test_history t ∧
  (∀ k, k ≠ probe_key p → results t' !! k = results t !! k) ∧
  (∀ r, (run_probe json_loads decode p model x t).2 = Ok r →
        results t' !! probe_key p = Some r).
Proof.
  destruct p; cbn [run_probe probe_key];
    unfold test_models_list, test_chat_completion, test_stream_mode,
      test_function_calling, test_embeddings, bind, store;
    try destruct (choose_model (results t) model);
    try destruct (choose_embedding_model (results t) model);
    cbn [fst snd results all_test_history];
    (split; [reflexivity |]); (split; [intros k Hk; rewrite ?lookup_insert_ne by done; reflexivity |]);
    intros r [= <-]; apply lookup_insert_eq.
Qed.

End MoreTheory.

(** X25: the streaming probe never returns a pass together with an error:
    it sets [success] last, after everything that can raise. *)
Theorem streaming_pass_has_no_error {F : Type} `{PyFloat F}
    (json_loads : string → string + value F) (decode : string → string)
    model m x (t : tester F) :
  choose_model (results t) model = Ok m →
  ∃ r : gmap string (value F),
    (test_stream_mode json_loads decode model x t).2 = Ok (VDict r) ∧
    (r !! "success" = Some (VBool true) → r !! "error" = Some VNone).
Proof. apply stream_pass_has_no_error. Qed.

(** * The further statements on concrete runs *)

Lemma four_models_in_three_classes :
  classify Console.four
  = Ok (Console.names ["gpt-4"; "Qwen2-72B"],
        Console.names ["text-embedding-3-small"],
        Console.names ["mistral-7b"]) ∧
  (Console.names ["gpt-4"; "Qwen2-72B"]
   ++ Console.names ["text-embedding-3-small"]
   ++ Console.names ["mistral-7b"])%list ≡ₚ Console.four.
Proof.
  assert (classify Console.four
          = Ok (Console.names ["gpt-4"; "Qwen2-72B"],
                Console.names ["text-embedding-3-small"],
                Console.names ["mistral-7b"])) as Hc by (vm_compute; reflexivity).
  split; [exact Hc |].
  destruct (models_are_partitioned _ _ _ _ Hc) as [Hp _]. exact Hp.
Defined.

Lemma third_number_is_the_embedding_model :
  select_model Console.py_int true ["3"; "1"] (Console.listing Console.four)
  = Ok (VStr "text-embedding-3-small", ["1"]).
Proof.
  eapply (select_by_number Console.py_int true "3" ["1"]
            (Console.listing Console.four) Console.four _ _ _ 3).
  - eexists. split; vm_compute; reflexivity.
  - vm_compute. reflexivity.
  - discriminate.
  - reflexivity.
  - lia.
  - reflexivity.
Defined.

Lemma zero_without_exit_asks_again :
  select_model Console.py_int false ["0"; "1"] (Console.listing Console.four)
  = select_model Console.py_int false ["1"] (Console.listing Console.four).
Proof.
  eapply (number_out_of_range Console.py_int false "0" ["1"]
            (Console.listing Console.four) Console.four _ _ _ 0).
  - eexists. split; vm_compute; reflexivity.
  - vm_compute. reflexivity.
  - discriminate.
  - discriminate.
  - reflexivity.
  - left. lia.
Defined.


Lemma empty_line_selects_first_chat_model :
  ∃ m : value Q,
    select_model Console.py_int true ["  "; "7"] (Console.listing Console.four)
    = Ok (m, ["7"]) ∧
    m ∈ Console.four ∧ m = VStr "gpt-4".
Proof.
  edestruct (empty_answer_selects_default Console.py_int true "  " ["7"]
               (Console.listing Console.four) Console.four)
    as (m & Hsel & Hin & Hhead & _).
  - eexists. split; vm_compute; reflexivity.
  - vm_compute. reflexivity.
  - discriminate.
  - reflexivity.
  - exists m. split; [exact Hsel |]. split; [exact Hin |].
    injection Hhead as <-. reflexivity.
Defined.

Lemma second_answer_is_listed :
  select_model Console.py_int true ["zzz"; "2"] (Console.listing Console.four)
  = Ok (VStr "Qwen2-72B", []) ∧
  (VStr "Qwen2-72B" : value Q) ∈ Console.four.
Proof.
  assert (select_model Console.py_int true ["zzz"; "2"] (Console.listing Console.four)
          = Ok (VStr "Qwen2-72B" : value Q, [])) as Hsel by (vm_compute; reflexivity).
  split; [exact Hsel |].
  destruct (select_model_returns_listed Console.py_int true ["zzz"; "2"]
              (Console.listing Console.four) Console.four _ _
              ltac:(eexists; split; vm_compute; reflexivity) Hsel)
    as [(Hnil & _) | (_ & [Hin | [_ Hexit]] & _)].
  - discriminate Hnil.
  - exact Hin.
  - discriminate Hexit.
Defined.

Lemma number_as_identifier_raises :
  select_model Console.py_int true ["1"]
    (Console.listing [VStr "gpt-4"; VInt 5; VStr "glm-4"])
  = Raise (Exn AttributeError "'int' object has no attribute 'lower'").
Proof.
  eapply (select_model_raises_on_non_string Console.py_int true ["1"]
            (Console.listing [VStr "gpt-4"; VInt 5; VStr "glm-4"])
            [VStr "gpt-4"] (VInt 5) [VStr "glm-4"]).
  - eexists. split; vm_compute; reflexivity.
  - constructor; [eexists; reflexivity | constructor].
  - discriminate.
Defined.



Lemma three_of_four_pass :
  summary_totals
    (results (test_single_model Console.json_loads Run.decode (VStr "gpt-4")
                (Run.plain 200 Run.hello_text) (Run.streamed Run.one_fragment)
                (Run.plain 200 Run.weather_text) Run.fresh).1)
  = (3, 4)%nat.
Proof.
  etransitivity.
  - apply (summary_counts_four_tests Console.json_loads Run.decode "gpt-4").
    + discriminate.
    + intros v Hv. vm_compute in Hv. discriminate Hv.
  - vm_compute. reflexivity.
Defined.

Lemma one_round_then_exit :
  let run := run_loop_mode Console.json_loads Run.decode Console.py_int
               (Run.plain 200 Console.two_models_text) [Console.round] ["1"; "0"]
               Run.fresh in
  run.2 = Ok (Ended [] []) ∧
  (length (all_test_history run.1) + length ([] : list (exchange Q * exchange Q * exchange Q))
   = length (all_test_history Run.fresh) + length [Console.round])%nat.
Proof.
  intros run.
  assert (run.2 = Ok (Ended [] [])) as Hend by (vm_compute; reflexivity).
  split; [exact Hend |].
  assert (run_loop_mode Console.json_loads Run.decode Console.py_int
            (Run.plain 200 Console.two_models_text) [Console.round] ["1"; "0"]
            Run.fresh = (run.1, Ok (Ended [] []))) as Hrun.
  { rewrite <- Hend. subst run. apply surjective_pairing. }
  apply (session_history_counts_rounds _ _ _ _ _ _ _ _ _ Hrun).
Defined.




Lemma chosen_model_is_reported :
  ∃ r : gmap string (value Q),
    (run_probe Console.json_loads Run.decode Chat VNone
       (Run.plain 200 Run.hello_text)
       (Tester (Console.listing Console.four) [])).2 = Ok (VDict r) ∧
    r !! "model_used" = Some (VStr "gpt-4").
Proof.
  apply (result_names_its_model Console.json_loads Run.decode Chat VNone).
  - discriminate.
  - vm_compute. reflexivity.
Defined.


Lemma three_dimensions :
  ∃ r : gmap string (value Q),
    (test_embeddings Console.json_loads (VStr "text-embedding-3-small")
       (Run.plain 200 Console.embedding_text) Run.fresh).2 = Ok (VDict r) ∧
    r !! "success" = Some (VBool true) ∧
    r !! "dimensions" = Some (VInt 3).
Proof.
  edestruct (embeddings_dimension Console.json_loads Run.decode
               (VStr "text-embedding-3-small") (VStr "text-embedding-3-small")
               (Run.plain 200 Console.embedding_text) Run.fresh
               (Response 200 Console.embedding_text [] None))
    as (r & Hres & Hvec & _).
  - reflexivity.
  - reflexivity.
  - reflexivity.
  - vm_compute. reflexivity.
  - exists r. split; [exact Hres |].
    edestruct Hvec as (Hsucc & _ & Hdim).
    + vm_compute. reflexivity.
    + vm_compute. reflexivity.
    + split; [exact Hsucc | exact Hdim].
Defined.

Lemma models_chosen_from_four :
  choose_model (Console.listing Console.four) VNone = Ok (VStr "gpt-4") ∧
  choose_embedding_model (Console.listing Console.four) VNone
  = Ok (VStr "text-embedding-3-small").
Proof.
  destruct (model_chosen_when_none_given (Console.listing Console.four) VNone
              ["text-embedding-3-small"; "gpt-4"; "mistral-7b"; "Qwen2-72B"])
    as [Hchat Hembed].
  - reflexivity.
  - left. eexists. split; vm_compute; reflexivity.
  - split; [rewrite Hchat | rewrite Hembed]; vm_compute; reflexivity.
Defined.

Lemma weather_call_is_a_pass :
  ∃ r : gmap string (value Q),
    (test_function_calling Console.json_loads Run.gpt4
       (Run.plain 200 Run.weather_text) Run.fresh).2 = Ok (VDict r) ∧
    (r !! "tool_called" = Some (VBool true) → r !! "success" = Some (VBool true)).
Proof.
  apply (tool_called_means_success Console.json_loads Run.decode Run.gpt4 Run.gpt4).
  reflexivity.
Defined.

Lemma lines_after_done_are_not_read :
  test_stream_mode Run.json_loads Run.decode Run.gpt4
    (Exchange 0%Q
       (Ok (Response 200 ""
              (app [("data: " ++ Run.delta_text "1", 1%Q)]
                 (("data: [DONE]", 1%Q) :: [("data: " ++ Run.delta_text "2", 3%Q)]))
              (Some (Exn ConnectionError "Connection reset by peer"))))
       2%Q) Run.fresh
  = test_stream_mode Run.json_loads Run.decode Run.gpt4
      (Exchange 0%Q
         (Ok (Response 200 ""
                (app [("data: " ++ Run.delta_text "1", 1%Q)] [("data: [DONE]", 1%Q)])
                None))
         2%Q) Run.fresh.
Proof.
  apply nothing_is_read_after_done.
  - discriminate.
  - reflexivity.
  - reflexivity.
Defined.


Lemma one_fragment_pass_has_no_error :
  ∃ r : gmap string (value Q),
    (test_stream_mode Run.json_loads Run.decode Run.gpt4
       (Run.streamed Run.one_fragment) Run.fresh).2 = Ok (VDict r) ∧
    (r !! "success" = Some (VBool true) → r !! "error" = Some VNone).
Proof.
  apply (streaming_pass_has_no_error Run.json_loads Run.decode Run.gpt4 Run.gpt4).
  reflexivity.
Defined.
